(** * HotelOps backend: persistence and schema core

    A shallow embedding of [src/schemas.py] (the pydantic entity schemas) and
    [src/main.py] (the FastAPI route handlers), together with a model of the
    document store adapter that [main.py] imports from the [database] module.

    Layout:
    - [Py]        : the Python values, exceptions and the state/exception monad;
    - [Schema]    : field declarations of [schemas.py] and model validation;
    - [Database]  : the store adapter ([db], [create_document], [get_documents]);
    - [Main]      : the route handlers of [main.py];
    - [Reference], [Notions], [Scenario], [App], [Cases] : an instance of
      the library functions, the notions the statements use, the requests
      of the application, concrete requests and stores;
    - [SchemaFacts] to [HealthCheck] : the properties of validation, of the
      store, of the record routes, of notifications, of document extraction
      and of the status query;
    - [Runs]      : the handlers and the theorems at concrete requests;
    - [ModelFacts] to [ListingProperties] : validated models, what an answer
      tells about the store, strings, sequences of requests;
    - [MoreRuns]  : these at concrete requests. *)

From Stdlib Require Import ZArith NArith Ascii String List HexString.
From Stdlib Require Import Floats.SpecFloat.
From stdpp Require Import base option list gmap strings.

Set Warnings "-register-all".
Local Open Scope string_scope.
Local Open Scope list_scope.

(* ===================================================================== *)
(** * Python values, exceptions, effects                                  *)
(* ===================================================================== *)

Module Py.

(** A parsed request body, as [json.loads] hands it to the framework.
    Numbers keep the int/float distinction of the Python values. *)
Inductive json : Type :=
| JNull
| JBool (b : bool)
| JInt (z : Z)
| JFloat (f : spec_float)
| JStr (s : string)
| JArr (items : list json)
| JObj (members : list (string * json)).

(** [datetime.datetime]: microseconds since the epoch and the UTC offset of
    an aware value ([None] for a naive one). *)
Record datetime : Type := DateTime {
  dt_micros : Z;
  dt_utcoffset : option Z
}.

(** The values held by validated models and stored documents.  The open
    mappings ([meta], [extracted]) keep their members as they came in. *)
Inductive value : Type :=
| VNone
| VStr (s : string)
| VFloat (f : spec_float)
| VDatetime (d : datetime)
| VObjectId (oid : N)
| VDict (members : list (string * json)).

(** A Python [dict] with string keys: a model dump, a stored document, a
    handler's result. *)
Abbreviation document := (gmap string value).

(** A float that is a number and not an infinity. *)
Definition finite_float (f : spec_float) : bool :=
  match f with
  | S754_zero _ | S754_finite _ _ _ => true
  | S754_infinity _ | S754_nan => false
  end.

(** Whether [json.dumps(..., allow_nan=False)] renders a value: no float in
    it is [NaN], [Infinity] or [-Infinity]. *)
Fixpoint finite_json (j : json) : bool :=
  match j with
  | JFloat f => finite_float f
  | JArr items => forallb finite_json items
  | JObj members => forallb (fun kv => finite_json (snd kv)) members
  | _ => true
  end.

(** Whether a value of a response is rendered: the encoder knows strings,
    [None], datetimes and mappings, refuses a native identifier, and the
    renderer refuses a float that is not finite. *)
Definition value_encodable (v : value) : bool :=
  match v with
  | VNone | VStr _ | VDatetime _ => true
  | VFloat f => finite_float f
  | VObjectId _ => false
  | VDict members => forallb (fun kv => finite_json (snd kv)) members
  end.

Definition doc_encodable (d : document) : bool :=
  bool_decide (map_Forall (fun _ v => value_encodable v = true) d).

(** [dict.get] on a parsed JSON object: for a repeated key the last
    occurrence is the one [json.loads] keeps. *)
Fixpoint obj_get (k : string) (o : list (string * json)) : option json :=
  match o with
  | [] => None
  | (k', v) :: rest =>
      match obj_get k rest with
      | Some w => Some w
      | None => if String.eqb k k' then Some v else None
      end
  end.

(** One line of a pydantic validation error. *)
Inductive error_type : Type :=
| missing
| string_type
| literal_error
| float_type
| float_parsing
| greater_than_equal
| value_error
| dict_type
| datetime_type
| datetime_parsing
| datetime_from_date_parsing
| model_attributes_type.

Record line_error : Type := LineError {
  loc : list string;
  typ : error_type
}.

(** What the libraries outside this repository do to a single value:
    pydantic's lax coercion of an input to [float] and to [datetime], the
    syntax check (with normalisation) of an e-mail address, and Python's
    [str()] of a float, a datetime or a mapping. *)
Class Externals : Type := {
  float_of_json : json -> error_type + spec_float;
  datetime_of_json : json -> error_type + datetime;
  validate_email : string -> option string;
  str_other : value -> string
}.

(** The exceptions that travel through the handlers. *)
Inductive exn : Type :=
| StoreUnavailable
| StoreWriteError (msg : string)
| StoreReadError (msg : string)
| AttributeError (msg : string)
| ValueError (msg : string)
| ValidationError (errors : list line_error).

(** ** State and exception monad

    A computation over a mutable state [S] either returns or raises; what it
    wrote to the state before raising stays written. *)
Definition SE (S A : Type) : Type := S -> (exn + A) * S.

Definition ret {S A} (a : A) : SE S A := fun s => (inr a, s).
Definition raise {S A} (e : exn) : SE S A := fun s => (inl e, s).
Definition bind {S A B} (m : SE S A) (k : A -> SE S B) : SE S B :=
  fun s => match m s with
           | (inr a, s') => k a s'
           | (inl e, s') => (inl e, s')
           end.
Definition get {S} : SE S S := fun s => (inr s, s).
Definition modify {S} (f : S -> S) : SE S unit := fun s => (inr tt, f s).

(** [try: body except Exception as e: handler e] *)
Definition try_except {S A} (body : SE S A) (handler : exn -> SE S A) : SE S A :=
  fun s => match body s with
           | (inl e, s') => handler e s'
           | r => r
           end.

(** Lifting a pure fallible step. *)
Definition lift {S A} (r : exn + A) : SE S A := fun s => (r, s).

Module Notations.
Notation "'do' x <- m ; k" := (bind m (fun x => k))
  (at level 10, x name, m at level 100, k at level 200).
Notation "'exec' m ; k" := (bind m (fun _ => k))
  (at level 10, m at level 100, k at level 200).
End Notations.

(** ** Strings *)

(** A byte that continues a character of a UTF-8 encoded string. *)
Definition continuation (c : ascii) : bool :=
  let n := nat_of_ascii c in (128 <=? n)%nat && (n <=? 191)%nat.

(** [len(s)]: the characters of a string, not its bytes. *)
Fixpoint str_len (s : string) : nat :=
  match s with
  | EmptyString => 0
  | String c s' => if continuation c then str_len s' else S (str_len s')
  end.

(** [s[:n]]: the first [n] characters, each with all its bytes. *)
Fixpoint str_take (n : nat) (s : string) : string :=
  match s with
  | EmptyString => EmptyString
  | String c s' =>
      if continuation c then String c (str_take n s')
      else match n with
           | 0 => EmptyString
           | S n' => String c (str_take n' s')
           end
  end.

(** [str.lower] on the ASCII letters; the other bytes stay. *)
Definition lower_ascii (c : ascii) : ascii :=
  let n := nat_of_ascii c in
  if (65 <=? n)%nat && (n <=? 90)%nat then ascii_of_nat (n + 32) else c.

Fixpoint lower (s : string) : string :=
  match s with
  | EmptyString => EmptyString
  | String c s' => String (lower_ascii c) (lower s')
  end.

(** [s.endswith(suffix)] *)
Definition endswith (s suffix : string) : bool :=
  let n := String.length s in
  let m := String.length suffix in
  (m <=? n)%nat && String.eqb (String.substring (n - m) m s) suffix.

(** [s.endswith((a, b, ...))] *)
Definition endswith_any (s : string) (suffixes : list string) : bool :=
  existsb (endswith s) suffixes.

End Py.

(* ===================================================================== *)
(** * schemas.py                                                          *)
(* ===================================================================== *)

Module Schema.
Import Py.

(** The annotation of a field. [TFloat (Some b)] is [float] with [ge=b]. *)
Inductive ftype : Type :=
| TStr
| TEmailStr
| TLiteral (allowed : list string)
| TFloat (ge : option spec_float)
| TDatetime
| TDict
| TOptional (t : ftype).

(** [Field(...)] against [Field(default)]; [default_factory=dict] yields the
    empty mapping. *)
Inductive fdefault : Type :=
| Required
| Default (v : value).

Record field : Type := Field {
  fname : string;
  ftyp : ftype;
  fdef : fdefault
}.

Definition zero : spec_float := S754_zero false.

Definition id_types : list string := ["aadhaar"; "pan"; "passport"; "other"].

Definition Guest : list field :=
  [ Field "full_name" TStr Required;
    Field "phone" (TOptional TStr) (Default VNone);
    Field "email" (TOptional TEmailStr) (Default VNone);
    Field "address" (TOptional TStr) (Default VNone);
    Field "id_type" (TOptional (TLiteral id_types)) (Default VNone);
    Field "id_number" (TOptional TStr) (Default VNone);
    Field "dob" (TOptional TStr) (Default VNone);
    Field "meta" TDict (Default (VDict [])) ].

Definition Booking : list field :=
  [ Field "guest_id" TStr Required;
    Field "room_number" TStr Required;
    Field "check_in" TDatetime Required;
    Field "check_out" TDatetime Required;
    Field "rate" (TFloat (Some zero)) Required;
    Field "source"
      (TOptional (TLiteral ["walkin"; "ota"; "corporate"; "phone"; "website"]))
      (Default (VStr "walkin"));
    Field "notes" (TOptional TStr) (Default VNone);
    Field "status" (TLiteral ["booked"; "checked_in"; "checked_out"; "cancelled"])
      (Default (VStr "booked")) ].

Definition Iddocument : list field :=
  [ Field "guest_id" (TOptional TStr) (Default VNone);
    Field "doc_type" (TOptional (TLiteral id_types)) (Default VNone);
    Field "id_number" (TOptional TStr) (Default VNone);
    Field "raw_text" (TOptional TStr) (Default VNone);
    Field "extracted" TDict (Default (VDict []));
    Field "file_name" (TOptional TStr) (Default VNone) ].

Definition Notification : list field :=
  [ Field "channel" (TLiteral ["sms"; "whatsapp"]) Required;
    Field "to" TStr Required;
    Field "message" TStr Required;
    Field "status" (TLiteral ["queued"; "sent"; "failed"]) (Default (VStr "queued"));
    Field "provider" (TOptional TStr) (Default VNone);
    Field "error" (TOptional TStr) (Default VNone) ].

Definition SCHEMAS : list (list field) := [Guest; Booking; Iddocument; Notification].

Section Validation.
Context `{Externals}.

(** The validator pydantic builds for an annotation. *)
Fixpoint validate_type (t : ftype) (j : json) : error_type + value :=
  match t with
  | TStr =>
      match j with JStr s => inr (VStr s) | _ => inl string_type end
  | TEmailStr =>
      match j with
      | JStr s =>
          match validate_email s with
          | Some s' => inr (VStr s')
          | None => inl value_error
          end
      | _ => inl string_type
      end
  | TLiteral allowed =>
      match j with
      | JStr s => if existsb (String.eqb s) allowed then inr (VStr s)
                  else inl literal_error
      | _ => inl literal_error
      end
  | TFloat ge =>
      match float_of_json j with
      | inl e => inl e
      | inr f =>
          match ge with
          | Some b => if SFleb b f then inr (VFloat f) else inl greater_than_equal
          | None => inr (VFloat f)
          end
      end
  | TDatetime =>
      match datetime_of_json j with
      | inl e => inl e
      | inr d => inr (VDatetime d)
      end
  | TDict =>
      match j with JObj o => inr (VDict o) | _ => inl dict_type end
  | TOptional t' =>
      match j with JNull => inr VNone | _ => validate_type t' j end
  end.

(** One turn of the loop over the fields of a model: the field's input is
    looked up, validated and stored, or its error line is appended; an absent
    input takes the default when one is declared. *)
Definition validate_field (input : list (string * json))
    (acc : list line_error * document) (f : field) : list line_error * document :=
  let '(errors, out) := acc in
  match obj_get (fname f) input with
  | Some j =>
      match validate_type (ftyp f) j with
      | inr v => (errors, <[fname f := v]> out)
      | inl e => (errors ++ [LineError [fname f] e], out)
      end
  | None =>
      match fdef f with
      | Default v => (errors, <[fname f := v]> out)
      | Required => (errors ++ [LineError [fname f] missing], out)
      end
  end.

(** Validation of a model: every field is visited; the errors of all of them
    are raised together. Keys that name no field are ignored. The result is
    the model as [model_dump()] shows it. *)
Definition validate_model (fields : list field) (input : list (string * json))
    : list line_error + document :=
  match fold_left (validate_field input) fields ([], ∅) with
  | ([], out) => inr out
  | (errors, _) => inl errors
  end.

End Validation.
End Schema.

(* ===================================================================== *)
(** * The store adapter ([database] module)                               *)
(* ===================================================================== *)

Module Database.
Import Py Py.Notations.

(** Modelled from the spec: the connected database object behind [db], which
    [database.py] builds and [src/] lacks. It has a name when known, named
    collections holding documents in insertion order, the next fresh
    identifier, and a fault description when the underlying storage is
    unreachable or failing. *)
Record Db : Type := MkDb {
  name : option string;
  colls : gmap string (list document);
  next_oid : N;
  fault : option string
}.

(** Modelled from the spec: the process-wide handle [db] of [database.py];
    [None] when no storage connection is configured (the disabled state). *)
Abbreviation handle := (option Db).

(** Modelled from the spec: the canonical string form of a store-assigned
    identifier, the one [create_document] of [database.py] returns. *)
Definition oid_str (oid : N) : string := HexString.of_N oid.

(** Modelled from the spec: the documents of a named collection of
    [database.py]'s store; a collection never written to is empty. *)
Definition docs_of (d : Db) (collection_name : string) : list document :=
  default [] (colls d !! collection_name).

(** Modelled from the spec: the filter mapping [get_documents] of
    [database.py] accepts: field equalities that must all hold (none for the
    empty mapping), or a logical OR over such mappings. *)
Inductive filter : Type :=
| Fields (eqs : list (string * string))
| AnyOf (branches : list (list (string * string))).

(** Modelled from the spec: exact equality of a document's field with a
    string, as a filter of [database.py]'s [get_documents] tests it. *)
Definition field_is (d : document) (eq : string * string) : bool :=
  match d !! eq.1 with
  | Some (VStr s) => String.eqb s eq.2
  | _ => false
  end.

(** Modelled from the spec: whether a document satisfies a filter of
    [database.py]'s [get_documents]. *)
Definition matches (f : filter) (d : document) : bool :=
  match f with
  | Fields eqs => forallb (field_is d) eqs
  | AnyOf branches => existsb (forallb (field_is d)) branches
  end.

(** Modelled from the spec: [create_document] of [database.py]. It fails with
    [StoreUnavailable] when no connection is configured and with
    [StoreWriteError] when the underlying write fails; otherwise it appends
    the record under a new identifier and returns the identifier's string
    form. *)
Definition create_document (collection_name : string) (record : document)
    : SE handle string :=
  fun db =>
    match db with
    | None => (inl StoreUnavailable, db)
    | Some d =>
        match fault d with
        | Some msg => (inl (StoreWriteError msg), db)
        | None =>
            let oid := next_oid d in
            let stored := <["_id" := VObjectId oid]> record in
            (inr (oid_str oid),
             Some (MkDb (name d)
                     (<[collection_name := docs_of d collection_name ++ [stored]]>
                        (colls d))
                     (N.succ oid) (fault d)))
        end
    end.

(** Modelled from the spec: [get_documents] of [database.py]. It fails with
    [StoreUnavailable] when no connection is configured; otherwise it returns
    the matching documents in insertion order, at most [limit] of them (an
    empty sequence when none matches). It does not write. *)
Definition get_documents (collection_name : string) (filt : filter) (limit : Z)
    : SE handle (list document) :=
  fun db =>
    match db with
    | None => (inl StoreUnavailable, db)
    | Some d =>
        match fault d with
        | Some msg => (inl (StoreReadError msg), db)
        | None =>
            (inr (take (Z.to_nat limit)
                    (List.filter (matches filt) (docs_of d collection_name))),
             db)
        end
    end.

(** Modelled from the spec: [db.list_collection_names()], the driver call of
    the database object of [database.py]: the names of the collections
    present, or an exception when the storage is unreachable. *)
Definition list_collection_names (d : Db) : exn + list string :=
  match fault d with
  | Some msg => inl (StoreReadError msg)
  | None => inr (map_to_list (colls d)).*1
  end.

(** Modelled from the spec: [str(e)] for the exceptions of [database.py] and
    of the handlers, the failure description. *)
Definition exn_str (e : exn) : string :=
  match e with
  | StoreUnavailable => "Database not available"
  | StoreWriteError msg => msg
  | StoreReadError msg => msg
  | AttributeError msg => msg
  | ValueError msg => msg
  | ValidationError errors => "validation error"
  end.

End Database.

(* ===================================================================== *)
(** * main.py                                                             *)
(* ===================================================================== *)

Module Main.
Import Py Py.Notations Schema Database.

(** What a route answers: the handler's result, the framework's rejection of
    a body that fails its model (422), or an exception escaping the handler
    (500). *)
Inductive response (A : Type) : Type :=
| OK (a : A)
| UnprocessableEntity (detail : list line_error)
| InternalServerError (e : exn).
Arguments OK {A} a.
Arguments UnprocessableEntity {A} detail.
Arguments InternalServerError {A} e.

(** ** [GET /test] *)

Record health : Type := Health {
  backend : string;
  database : string;
  database_url : option string;
  database_name : option string;
  connection_status : string;
  collections : list string
}.

Definition set_database (v : string) (r : health) : health :=
  Health (backend r) v (database_url r) (database_name r)
    (connection_status r) (collections r).
Definition set_database_url (v : option string) (r : health) : health :=
  Health (backend r) (database r) v (database_name r)
    (connection_status r) (collections r).
Definition set_database_name (v : option string) (r : health) : health :=
  Health (backend r) (database r) (database_url r) v
    (connection_status r) (collections r).
Definition set_connection_status (v : string) (r : health) : health :=
  Health (backend r) (database r) (database_url r) (database_name r)
    v (collections r).
Definition set_collections (v : list string) (r : health) : health :=
  Health (backend r) (database r) (database_url r) (database_name r)
    (connection_status r) v.

(** [os.getenv(k)] used as a condition: set and not empty. *)
Definition getenv_truthy (environ : gmap string string) (k : string) : bool :=
  match environ !! k with
  | Some v => negb (String.eqb v "")
  | None => false
  end.

(** The body of [test_database], over the [response] dictionary it mutates. *)
Definition test_database_body (db : handle) (environ : gmap string string)
    : SE health health :=
  exec try_except
    (match db with
     | Some d =>
         exec modify (set_database "✅ Available");
         exec modify (set_database_url (Some "✅ Configured"));
         exec modify (set_database_name
                        (Some (match name d with
                               | Some n => n
                               | None => "✅ Connected"
                               end)));
         exec modify (set_connection_status "Connected");
         try_except
           (do collections <- lift (list_collection_names d);
            exec modify (set_collections (take 10 collections));
            modify (set_database "✅ Connected & Working"))
           (fun e =>
              modify (set_database
                        ("⚠️  Connected but Error: " +:+ str_take 50 (exn_str e))))
     | None => modify (set_database "⚠️  Available but not initialized")
     end)
    (fun e => modify (set_database ("❌ Error: " +:+ str_take 50 (exn_str e))));
  exec modify (set_database_url
                 (Some (if getenv_truthy environ "DATABASE_URL"
                        then "✅ Set" else "❌ Not Set")));
  exec modify (set_database_name
                 (Some (if getenv_truthy environ "DATABASE_NAME"
                        then "✅ Set" else "❌ Not Set")));
  get.

Definition test_database (db : handle) (environ : gmap string string)
    : exn + health :=
  (test_database_body db environ
     (Health "✅ Running" "❌ Not Available" None None "Not Connected" [])).1.

(** ** [POST /api/ocr] *)

Record OCRResult : Type := MkOCRResult {
  id_type : option string;
  id_number : option string;
  full_name : option string;
  dob : option string;
  raw_text : option string
}.

(** The uploaded file: its name and content type as the client sent them (or
    not), and its bytes. *)
Record UploadFile : Type := MkUploadFile {
  filename : option string;
  content_type : option string;
  content : string
}.

Definition opt_str (o : option string) : value :=
  match o with Some s => VStr s | None => VNone end.

(** [ocr_extract]; [now] is [datetime.utcnow().isoformat()] at the call. *)
Definition ocr_extract (file : UploadFile) (now : string) : SE handle OCRResult :=
  let meta : document :=
    <["filename" := opt_str (filename file)]>
      (<["content_type" := opt_str (content_type file)]>
         (<["received_at" := VStr now]> ∅)) in
  exec create_document "iddocument"
         (meta ∪ (<["file_name" := opt_str (filename file)]>
                    (<["extracted" := VDict []]>
                       (<["raw_text" := VNone]> ∅))));
  do fname <- match filename file with
              | Some s => ret s
              | None => raise (AttributeError
                                 "'NoneType' object has no attribute 'lower'")
              end;
  ret (MkOCRResult
         (Some (if endswith_any (lower fname) [".jpg"; ".png"; ".jpeg"]
                then "aadhaar" else "pan"))
         (Some "XXXX-XXXX-1234")
         (Some "Sample Guest")
         (Some "1990-01-01")
         (Some "Mocked OCR content")).

(** ** Guests and bookings *)

Section Handlers.
Context `{Externals}.

(** Python's [str()] as [list_guests] and [list_bookings] apply it to an
    identifier. *)
Definition str (v : value) : string :=
  match v with
  | VObjectId oid => oid_str oid
  | VStr s => s
  | VNone => "None"
  | _ => str_other v
  end.

(** [for d in docs: if "_id" in d: d["_id"] = str(d["_id"])], one turn. *)
Definition stringify_id (d : document) : document :=
  match d !! "_id" with
  | Some v => <["_id" := VStr (str v)]> d
  | None => d
  end.

(** [create_guest]; [guest] is the validated model, seen as its dump. *)
Definition create_guest (guest : document) : SE handle document :=
  do guest_id <- create_document "guest" guest;
  ret (guest ∪ {["_id" := VStr guest_id]}).

(** [if q:] on an optional string. *)
Definition truthy (q : option string) : bool :=
  match q with
  | Some s => negb (String.eqb s "")
  | None => false
  end.

Definition list_guests (q : option string) (limit : Z)
    : SE handle (list document) :=
  let filt :=
    if truthy q
    then AnyOf [[("phone", default "" q)]; [("id_number", default "" q)]]
    else Fields [] in
  do docs <- get_documents "guest" filt limit;
  ret (map stringify_id docs).

Definition create_booking (booking : document) : SE handle document :=
  do booking_id <- create_document "booking" booking;
  ret (booking ∪ {["_id" := VStr booking_id]}).

Definition list_bookings (limit : Z) : SE handle (list document) :=
  do docs <- get_documents "booking" (Fields []) limit;
  ret (map stringify_id docs).

(** ** Notifications *)

Record SendNotificationPayload : Type := MkPayload {
  channel : string;
  to : string;
  message : string
}.

Definition SendNotificationPayload_fields : list field :=
  [ Field "channel" TStr Required;
    Field "to" TStr Required;
    Field "message" TStr Required ].

(** What [send_notification] returns: [{"status": ..., "id": ...}]. *)
Record notify_result : Type := MkNotifyResult {
  status : string;
  id : string
}.

(** [send_notification]. Building the [Notification] model validates the
    keyword arguments; its errors are raised inside the handler. *)
Definition send_notification (payload : SendNotificationPayload)
    : SE handle notify_result :=
  do notif <- lift
      (match validate_model Notification
               [("channel", JStr (channel payload));
                ("to", JStr (to payload));
                ("message", JStr (message payload))] with
       | inr m => inr m
       | inl errors => inl (ValidationError errors)
       end);
  do notif_id <- create_document "notification" notif;
  ret (MkNotifyResult "sent" notif_id).

(** ** The routes, as the framework serves them *)

(** What the renderer raises on a value it refuses. *)
Definition encoding_error : exn :=
  ValueError "Out of range float values are not JSON compliant".

(** A handler's outcome as a response. What the handler returns is encoded
    and rendered after it has run: a result the renderer refuses is answered
    with a server error, the handler's writes being done. *)
Definition respond {A} (encodable : A -> bool) (m : SE handle A) (db : handle)
    : response A * handle :=
  match m db with
  | (inr a, db') =>
      if encodable a then (OK a, db') else (InternalServerError encoding_error, db')
  | (inl e, db') => (InternalServerError e, db')
  end.

(** The input an error line echoes: the input of the field it names, the
    whole body for a field that is missing. *)
Definition echoed (input : list (string * json)) (e : line_error) : json :=
  match loc e with
  | [k] => default (JObj input) (obj_get k input)
  | _ => JObj input
  end.

(** The 422 answer: the error lines are rendered together with the inputs
    they echo, which fails when one of them holds a float that is not
    finite. *)
Definition unprocessable {A} (detail : list line_error) (inputs : list json)
    (db : handle) : response A * handle :=
  if forallb finite_json inputs then (UnprocessableEntity detail, db)
  else (InternalServerError encoding_error, db).

(** A route with a body parameter of a model type: the body is validated
    before the handler runs; on failure the handler is not called and every
    error line is reported under ["body"]. *)
Definition with_body {A} (encodable : A -> bool) (model : list field)
    (body : json) (handler : document -> SE handle A) (db : handle)
    : response A * handle :=
  match body with
  | JObj o =>
      match validate_model model o with
      | inr m => respond encodable (handler m) db
      | inl errors =>
          unprocessable
            (map (fun e => LineError ("body" :: loc e) (typ e)) errors)
            (map (echoed o) errors) db
      end
  | JNull => unprocessable [LineError ["body"] missing] [JNull] db
  | _ => unprocessable [LineError ["body"] model_attributes_type] [body] db
  end.

Definition as_payload (m : document) : exn + SendNotificationPayload :=
  match m !! "channel", m !! "to", m !! "message" with
  | Some (VStr c), Some (VStr t), Some (VStr msg) => inr (MkPayload c t msg)
  | _, _, _ => inl (AttributeError "payload")
  end.

Definition POST_api_guests (body : json) :=
  with_body doc_encodable Guest body create_guest.
Definition GET_api_guests (q : option string) (limit : option Z) :=
  respond (forallb doc_encodable) (list_guests q (default 25%Z limit)).
Definition POST_api_bookings (body : json) :=
  with_body doc_encodable Booking body create_booking.
Definition GET_api_bookings (limit : option Z) :=
  respond (forallb doc_encodable) (list_bookings (default 50%Z limit)).
Definition POST_api_notify (body : json) :=
  with_body (fun _ => true) SendNotificationPayload_fields body
    (fun m => do payload <- lift (as_payload m); send_notification payload).
Definition POST_api_ocr (file : UploadFile) (now : string) :=
  respond (fun _ => true) (ocr_extract file now).

End Handlers.
End Main.

(* ===================================================================== *)
(** * A reference instance of the library functions                        *)
(* ===================================================================== *)

Module Reference.
Import Py Schema.
Local Open Scope Z_scope.

(** ** Numbers written in decimal digits *)

Definition digit (c : ascii) : option Z :=
  let n := nat_of_ascii c in
  if (48 <=? n)%nat && (n <=? 57)%nat then Some (Z.of_nat (n - 48)%nat) else None.

Fixpoint number_from (acc : Z) (s : string) : option Z :=
  match s with
  | EmptyString => Some acc
  | String c s' =>
      match digit c with
      | Some d => number_from (10 * acc + d) s'
      | None => None
      end
  end.

Definition number (s : string) : option Z :=
  match s with
  | EmptyString => None
  | _ => number_from 0 s
  end.

(** An integer literal with an optional sign. *)
Definition signed_number (s : string) : option Z :=
  match s with
  | String "-" s' => Z.opp <$> number s'
  | String "+" s' => number s'
  | _ => number s
  end.

(** An integer as a binary64 float, when it is in range. *)
Definition float_of_int (z : Z) : error_type + spec_float :=
  match binary_normalize 53 1024 z 0 false with
  | S754_infinity _ => inl float_type
  | f => inr f
  end.

(** ** Datetimes *)

Definition leap_year (y : Z) : bool :=
  ((y mod 4 =? 0) && negb (y mod 100 =? 0) || (y mod 400 =? 0))%Z.

Definition days_in_month (y m : Z) : Z :=
  if (m =? 2)%Z then (if leap_year y then 29 else 28)
  else if ((m =? 4) || (m =? 6) || (m =? 9) || (m =? 11))%Z then 30 else 31.

(** Days from 1970-01-01 to a date of the proleptic Gregorian calendar. *)
Definition days_from_civil (y m d : Z) : Z :=
  let y' := if (m <=? 2)%Z then y - 1 else y in
  let era := y' / 400 in
  let yoe := y' - era * 400 in
  let mp := (m + 9) mod 12 in
  let doy := (153 * mp + 2) / 5 + d - 1 in
  let doe := yoe * 365 + yoe / 4 - yoe / 100 + doy in
  era * 146097 + doe - 719468.

Definition char_at (n : nat) (s : string) : option ascii := String.get n s.

Definition in_range (lo hi : Z) (o : option Z) : option Z :=
  match o with
  | Some z => if ((lo <=? z) && (z <=? hi))%Z then Some z else None
  | None => None
  end.

(** [YYYY-MM-DD] as days since the epoch. *)
Definition parse_date (s : string) : option Z :=
  match char_at 4 s, char_at 7 s with
  | Some "-"%char, Some "-"%char =>
      match in_range 1 9999 (number (String.substring 0 4 s)),
            in_range 1 12 (number (String.substring 5 2 s)),
            number (String.substring 8 2 s) with
      | Some y, Some m, Some d =>
          if (String.length s =? 10)%nat
             && ((1 <=? d) && (d <=? days_in_month y m))%Z
          then Some (days_from_civil y m d) else None
      | _, _, _ => None
      end
  | _, _ => None
  end.

(** [HH:MM] or [HH:MM:SS] as seconds of the day. *)
Definition parse_time (s : string) : option Z :=
  match char_at 2 s with
  | Some ":"%char =>
      match in_range 0 23 (number (String.substring 0 2 s)),
            in_range 0 59 (number (String.substring 3 2 s)) with
      | Some h, Some mi =>
          if (String.length s =? 5)%nat then Some (h * 3600 + mi * 60)
          else
            match char_at 5 s, in_range 0 59 (number (String.substring 6 2 s)) with
            | Some ":"%char, Some sec =>
                if (String.length s =? 8)%nat
                then Some (h * 3600 + mi * 60 + sec) else None
            | _, _ => None
            end
      | _, _ => None
      end
  | _ => None
  end.

(** The text before the first [sep] and the text after it. *)
Fixpoint split_at (sep : ascii) (s : string) : option (string * string) :=
  match s with
  | EmptyString => None
  | String c s' =>
      if Ascii.eqb c sep then Some (EmptyString, s')
      else match split_at sep s' with
           | Some (a, b) => Some (String c a, b)
           | None => None
           end
  end.

(** A time of the day in microseconds: [HH:MM], [HH:MM:SS], or the latter
    with a fraction of one to six digits. *)
Definition parse_clock (s : string) : option Z :=
  match split_at "." s with
  | Some (hms, frac) =>
      match parse_time hms, number frac with
      | Some secs, Some n =>
          if (String.length hms =? 8)%nat && (String.length frac <=? 6)%nat
          then Some (secs * 1000000
                     + n * 10 ^ (6 - Z.of_nat (String.length frac)))
          else None
      | _, _ => None
      end
  | None => Z.mul 1000000 <$> parse_time s
  end.

(** Nothing for a naive time, [Z] or [+HH:MM] or [-HH:MM] for an aware one;
    the offset in seconds. *)
Definition parse_offset (s : string) : option (option Z) :=
  match s with
  | EmptyString => Some None
  | String c rest =>
      if (Ascii.eqb c "Z" || Ascii.eqb c "z")
      then (if String.eqb rest "" then Some (Some 0%Z) else None)
      else
        match parse_time rest with
        | Some secs =>
            if (String.length rest =? 5)%nat
            then (if Ascii.eqb c "+" then Some (Some secs)
                  else if Ascii.eqb c "-" then Some (Some (- secs)%Z)
                  else None)
            else None
        | None => None
        end
  end.

(** Where the offset of a time starts, if it has one. *)
Fixpoint offset_start (n : nat) (s : string) : nat :=
  match s with
  | EmptyString => n
  | String c s' =>
      if (Ascii.eqb c "Z" || Ascii.eqb c "z" || Ascii.eqb c "+" || Ascii.eqb c "-")
      then n else offset_start (S n) s'
  end.

Definition parse_datetime (s : string) : option datetime :=
  match parse_date (String.substring 0 10 s) with
  | None => None
  | Some days =>
      if (String.length s =? 10)%nat
      then Some (DateTime (days * 86400 * 1000000) None)
      else
        match char_at 10 s with
        | Some sep =>
            if (Ascii.eqb sep "T" || Ascii.eqb sep "t"
                || Ascii.eqb sep " " || Ascii.eqb sep "_")
            then
              let rest := String.substring 11 (String.length s - 11)%nat s in
              let cut := offset_start 0 rest in
              match parse_clock (String.substring 0 cut rest),
                    parse_offset
                      (String.substring cut (String.length rest - cut)%nat rest) with
              | Some micros, Some offset =>
                  Some (DateTime
                          ((days * 86400 - default 0%Z offset) * 1000000 + micros)
                          offset)
              | _, _ => None
              end
            else None
        | None => None
        end
  end.

(** ** E-mail addresses *)

Definition alnum (c : ascii) : bool :=
  let n := nat_of_ascii c in
  ((48 <=? n) && (n <=? 57) || (65 <=? n) && (n <=? 90)
   || (97 <=? n) && (n <=? 122))%nat.

Definition atext (c : ascii) : bool :=
  alnum c || existsb (Ascii.eqb c) (list_ascii_of_string "!#$%&'*+-/=?^_`{|}~").

(** Pieces separated by dots, none empty, each made of the given
    characters. *)
Fixpoint dotted (ok : ascii -> bool) (fresh : bool) (s : string) : bool :=
  match s with
  | EmptyString => negb fresh
  | String c s' =>
      if Ascii.eqb c "." then negb fresh && dotted ok true s'
      else ok c && dotted ok false s'
  end.

Fixpoint labels_ok (start : bool) (s : string) : bool :=
  match s with
  | EmptyString => negb start
  | String c s' =>
      if Ascii.eqb c "." then negb start && labels_ok true s'
      else if Ascii.eqb c "-"
           then negb start
                && match s' with
                   | EmptyString => false
                   | String c' _ => negb (Ascii.eqb c' ".")
                   end
                && labels_ok false s'
           else alnum c && labels_ok false s'
  end.

Definition has_dot (s : string) : bool :=
  existsb (Ascii.eqb ".") (list_ascii_of_string s).

Definition check_email (s : string) : option string :=
  match split_at "@" s with
  | Some (local, domain) =>
      if dotted atext true local
         && (String.length local <=? 64)%nat
         && labels_ok true domain && has_dot domain
         && (String.length domain <=? 253)%nat
      then Some (local +:+ "@" +:+ lower domain) else None
  | None => None
  end.

(** An instance for running the handlers on concrete requests. It reads
    floats given as JSON floats, as integers in the range of binary64 or as
    integer literals in a string; datetimes given as integers (seconds since
    the epoch up to 2e10 in absolute value, milliseconds beyond, aware and in
    UTC) or as ISO 8601 text ([YYYY-MM-DD], then optionally a separator,
    [HH:MM] or [HH:MM:SS] with up to six digits of fraction, and [Z] or a
    signed [HH:MM] offset); addresses with an unquoted ASCII local part and a
    dotted host name, the host name lower-cased. What it does not read it
    rejects, also where the libraries would read it: a timestamp given as a
    float, a float written with a fraction or an exponent in a string, an
    address with a quoted or non-ASCII part. The theorems hold for every
    instance; this one only supplies the concrete runs. *)
#[export] Instance externals : Externals := {|
  float_of_json j :=
    match j with
    | JFloat f => inr f
    | JInt z => float_of_int z
    | JStr s =>
        match signed_number s with
        | Some z => float_of_int z
        | None => inl float_parsing
        end
    | _ => inl float_type
    end;
  datetime_of_json j :=
    match j with
    | JInt z =>
        inr (DateTime
               (if (Z.abs z <=? 20000000000)%Z then z * 1000000 else z * 1000)
               (Some 0%Z))
    | JStr s =>
        match parse_datetime s with
        | Some d => inr d
        | None => inl datetime_from_date_parsing
        end
    | _ => inl datetime_type
    end;
  validate_email := check_email;
  str_other _ := ""
|}.

End Reference.

(* ===================================================================== *)
(** * Notions used in the statements                                      *)
(* ===================================================================== *)

Module Notions.
Import Py Schema Database Main.

Section Violations.
Context `{Externals}.

(** The constraint a field's input violates, if any: a required field that
    is missing, or an input its annotation rejects (wrong type, value
    outside the enumeration, number below the minimum, malformed e-mail). *)
Definition field_violation (input : list (string * json)) (f : field)
    : option error_type :=
  match obj_get (fname f) input with
  | Some j =>
      match validate_type (ftyp f) j with
      | inl e => Some e
      | inr _ => None
      end
  | None =>
      match fdef f with
      | Required => Some missing
      | Default _ => None
      end
  end.


(** The error line a violated field contributes. *)
Definition field_line (input : list (string * json)) (f : field)
    : option line_error :=
  LineError [fname f] <$> field_violation input f.

End Violations.





(** The store after [create_document] has written a record. *)
Definition written (collection_name : string) (record : document) (d : Db) : Db :=
  MkDb (name d)
    (<[collection_name :=
         docs_of d collection_name ++ [<["_id" := VObjectId (next_oid d)]> record]]>
       (colls d))
    (N.succ (next_oid d)) (fault d).

(** Every identifier in the store was handed out before the next one. *)
Definition ids_issued (d : Db) : Prop :=
  forall collection_name doc oid,
    doc ∈ docs_of d collection_name ->
    doc !! "_id" = Some (VObjectId oid) ->
    (oid < next_oid d)%N.

(** A guest record whose [phone] or whose [id_number] is the string [q]. *)
Definition phone_or_id_number_is (q : string) (doc : document) : bool :=
  match doc !! "phone" with Some (VStr s) => String.eqb s q | _ => false end
  || match doc !! "id_number" with Some (VStr s) => String.eqb s q | _ => false end.

(** A stored record and the record a listing shows for it: the identifier is
    replaced by its string form, every other field is as stored. *)
Definition identifier_stringified `{Externals} (stored listed : document) : Prop :=
  (forall k, k <> "_id" -> listed !! k = stored !! k)
  /\ listed !! "_id" = (fun v => VStr (str v)) <$> stored !! "_id".

(** The dump of the [Notification] model built from a payload: the three
    given fields and the declared defaults. *)
Definition queued_notification (payload : SendNotificationPayload) : document :=
  <["error" := VNone]>
    (<["provider" := VNone]>
       (<["status" := VStr "queued"]>
          (<["message" := VStr (message payload)]>
             (<["to" := VStr (to payload)]>
                (<["channel" := VStr (channel payload)]> ∅))))).

(** The record [ocr_extract] hands to the store. *)
Definition audit_record (file : UploadFile) (now : string) : document :=
  (<["filename" := opt_str (filename file)]>
     (<["content_type" := opt_str (content_type file)]>
        (<["received_at" := VStr now]> ∅)))
  ∪ (<["file_name" := opt_str (filename file)]>
       (<["extracted" := VDict []]>
          (<["raw_text" := VNone]> ∅))).

(** Whether the upload's name has one of the image extensions. *)
Definition image_name (fname : string) : bool :=
  endswith_any (lower fname) [".jpg"; ".png"; ".jpeg"].

Definition mocked (fname : string) : OCRResult :=
  MkOCRResult (Some (if image_name fname then "aadhaar" else "pan"))
    (Some "XXXX-XXXX-1234") (Some "Sample Guest") (Some "1990-01-01")
    (Some "Mocked OCR content").

End Notions.

(* ===================================================================== *)
(** * Concrete requests and stores                                        *)
(* ===================================================================== *)

Module Scenario.
Import Py Schema Database Main Notions.

(** An empty, reachable store. *)
Definition db0 : Db := MkDb (Some "hotelops") ∅ 0 None.

Definition asha_input : list (string * json) :=
  [("full_name", JStr "Asha Rao"); ("phone", JStr "+919999999999")].

Definition asha : document :=
  <["meta" := VDict []]>
    (<["dob" := VNone]>
       (<["id_number" := VNone]>
          (<["id_type" := VNone]>
             (<["address" := VNone]>
                (<["email" := VNone]>
                   (<["phone" := VStr "+919999999999"]>
                      (<["full_name" := VStr "Asha Rao"]> ∅))))))).

(** A second guest reachable on the same phone number. *)
Definition ravi : document :=
  <["full_name" := VStr "Ravi Rao"]> asha.


Definition minus_infinity : spec_float := S754_infinity true.

Definition booking_input (rate : json) : list (string * json) :=
  [("guest_id", JStr "0x0"); ("room_number", JStr "204");
   ("check_in", JStr "2024-01-01T14:00:00");
   ("check_out", JStr "2024-01-02T11:00:00");
   ("rate", rate)].

Definition booking_204 : document :=
  <["status" := VStr "booked"]>
    (<["notes" := VNone]>
       (<["source" := VStr "walkin"]>
          (<["rate" := VFloat (binary_normalize 53 1024 1200 0 false)]>
             (<["check_out" := VDatetime (DateTime 1704193200000000 None)]>
                (<["check_in" := VDatetime (DateTime 1704117600000000 None)]>
                   (<["room_number" := VStr "204"]>
                      (<["guest_id" := VStr "0x0"]> ∅))))))).


(** Two guests on one phone number. *)
Definition db_two_guests : Db := written "guest" ravi (written "guest" asha db0).

Definition welcome : SendNotificationPayload :=
  MkPayload "whatsapp" "+919999999999" "Welcome to the hotel".

Definition scan : UploadFile :=
  MkUploadFile (Some "aadhaar-front.JPG") (Some "image/jpeg") "".

(** An upload whose name the client did not send. *)
Definition nameless : UploadFile := MkUploadFile None None "".

Definition noon : string := "2024-01-01T12:00:00".

Definition photo : UploadFile :=
  MkUploadFile (Some "pan-card.png") (Some "image/png") "PNG".

(** A send request with a channel outside the enumeration and no
    destination. *)
Definition email_without_destination : list (string * json) :=
  [("channel", JStr "email"); ("message", JStr "hi")].

End Scenario.

(* ===================================================================== *)
(** * The application as a whole                                          *)
(* ===================================================================== *)

Module App.
Import Py Schema Database Main Notions.

(** [read_root] *)
Definition read_root : document :=
  {["message" := VStr "HotelOps backend is running"]}.

(** A request to one of the routes [app] declares. *)
Inductive request : Type :=
| GetRoot
| GetTest (environ : gmap string string)
| PostOcr (file : UploadFile) (now : string)
| PostGuests (body : json)
| GetGuests (q : option string) (limit : option Z)
| PostBookings (body : json)
| GetBookings (limit : option Z)
| PostNotify (body : json).

(** The store handle after a request has been served. *)
Definition after `{Externals} (db : handle) (r : request) : handle :=
  match r with
  | GetRoot => db
  | GetTest _ => db
  | PostOcr file now => (POST_api_ocr file now db).2
  | PostGuests body => (POST_api_guests body db).2
  | GetGuests q limit => (GET_api_guests q limit db).2
  | PostBookings body => (POST_api_bookings body db).2
  | GetBookings limit => (GET_api_bookings limit db).2
  | PostNotify body => (POST_api_notify body db).2
  end.

(** The store handle after a sequence of requests, served in order. *)
Definition after_all `{Externals} (db : handle) (rs : list request) : handle :=
  fold_left after rs db.

(** The value a field of a validated model holds: the validated input when
    one is given, the declared default when none is. *)
Definition field_value `{Externals} (input : list (string * json)) (f : field)
    : option value :=
  match obj_get (fname f) input with
  | Some j =>
      match validate_type (ftyp f) j with
      | inr v => Some v
      | inl _ => None
      end
  | None =>
      match fdef f with
      | Default v => Some v
      | Required => None
      end
  end.

(** One request leaves the handle as it was or has one record written. *)
Definition one_write (db db' : handle) : Prop :=
  db' = db
  \/ exists d collection_name record,
       db = Some d /\ fault d = None
       /\ db' = Some (written collection_name record d).

(** What any sequence of requests keeps of a connected store. *)
Definition extends (d d' : Db) (n : nat) : Prop :=
  (forall collection_name,
     docs_of d collection_name `prefix_of` docs_of d' collection_name)
  /\ name d' = name d /\ fault d' = fault d
  /\ (next_oid d <= next_oid d' <= next_oid d + N.of_nat n)%N
  /\ (ids_issued d -> ids_issued d').

End App.

(* ===================================================================== *)
(** * More concrete requests and stores                                   *)
(* ===================================================================== *)

Module Cases.
Import Py Schema Database Main Notions Scenario.

(** A connected store whose storage does not answer. *)
Definition db_down : Db :=
  MkDb (Some "hotelops") ∅ 0 (Some "connection refused").

(** The dump of an [Iddocument] built from nothing: every default. *)
Definition blank_iddocument : document :=
  <["file_name" := VNone]>
    (<["extracted" := VDict []]>
       (<["raw_text" := VNone]>
          (<["id_number" := VNone]>
             (<["doc_type" := VNone]>
                (<["guest_id" := VNone]> ∅))))).

Definition mail : SendNotificationPayload :=
  MkPayload "email" "asha@example.org" "Welcome".


End Cases.

(* ===================================================================== *)
(** * Model validation                                                    *)
(* ===================================================================== *)

Module SchemaFacts.
Import Py Schema Notions.

Section Facts.
Context `{Externals}.

Lemma validate_field_errors input errors out f :
  (validate_field input (errors, out) f).1
  = errors ++ option_list (field_line input f).
Proof.
  unfold validate_field, field_line, field_violation.
  destruct (obj_get (fname f) input) as [j|].
  - destruct (validate_type (ftyp f) j); simpl; [done | by rewrite app_nil_r].
  - destruct (fdef f); simpl; [done | by rewrite app_nil_r].
Qed.

(** The loop never drops an error and never stops early: its errors are those
    it started with followed by one line per violated field, in order. *)
Lemma fold_validate_errors input fields acc :
  (fold_left (validate_field input) fields acc).1
  = acc.1 ++ omap (field_line input) fields.
Proof.
  revert acc. induction fields as [|f fields IH]; intros [errors out].
  - simpl. by rewrite app_nil_r.
  - cbn [fold_left]. rewrite IH, validate_field_errors, <- app_assoc.
    cbn [fst omap list_omap]. f_equal. by destruct (field_line input f).
Qed.






(** A key that names no field stays out of the validated model. *)
Lemma fold_validate_lookup_None input (fields : list field) acc k :
  k ∉ fname <$> fields -> acc.2 !! k = None ->
  (fold_left (validate_field input) fields acc).2 !! k = None.
Proof.
  revert acc. induction fields as [|f fields IH]; intros [errors out] Hk Hacc;
    [done|].
  cbn [fold_left]. rewrite fmap_cons, not_elem_of_cons in Hk.
  destruct Hk as [Hne Hk]. apply IH; [done|].
  unfold validate_field.
  destruct (obj_get (fname f) input) as [j|].
  - destruct (validate_type (ftyp f) j); simpl; [done|].
    by rewrite lookup_insert_ne.
  - destruct (fdef f); simpl; [done|]. by rewrite lookup_insert_ne.
Qed.

Lemma validate_model_lookup_None input (fields : list field) m k :
  validate_model fields input = inr m -> k ∉ fname <$> fields -> m !! k = None.
Proof.
  unfold validate_model. intros Hv Hk.
  pose proof (fold_validate_lookup_None input fields ([], ∅) k Hk
                (lookup_empty k)) as Hf.
  destruct (fold_left (validate_field input) fields ([], ∅)) as [[|e es] out];
    [|done]. by inversion Hv; subst.
Qed.

End Facts.
End SchemaFacts.

(* ===================================================================== *)
(** * Validation at the create routes                                     *)
(* ===================================================================== *)

Module CreateValidation.
Import Py Schema Database Main Notions SchemaFacts.


Lemma ge_zero_not_below (f : spec_float) :
  SFleb zero f = true -> SFltb f zero = false.
Proof. by destruct f as [[]| [] | |[] m e]. Qed.

Section Routes.
Context `{Externals}.







End Routes.

Section Claims.
Context `{Externals}.



End Claims.
End CreateValidation.

(* ===================================================================== *)
(** * The store adapter: identifiers and collections                      *)
(* ===================================================================== *)

Module DatabaseFacts.
Import Py Database Notions.

Lemma create_document_ok collection_name record d :
  fault d = None ->
  create_document collection_name record (Some d)
  = (inr (oid_str (next_oid d)), Some (written collection_name record d)).
Proof. intros Hf. unfold create_document, written. by rewrite !Hf. Qed.

Lemma create_document_unavailable collection_name record :
  create_document collection_name record None = (inl StoreUnavailable, None).
Proof. done. Qed.

Lemma get_documents_ok collection_name filt limit d :
  fault d = None ->
  get_documents collection_name filt limit (Some d)
  = (inr (take (Z.to_nat limit)
            (List.filter (matches filt) (docs_of d collection_name))),
     Some d).
Proof. intros Hf. unfold get_documents. by rewrite Hf. Qed.

Lemma docs_of_written collection_name record d :
  docs_of (written collection_name record d) collection_name
  = docs_of d collection_name ++ [<["_id" := VObjectId (next_oid d)]> record].
Proof. unfold docs_of at 1, written. simpl. by rewrite lookup_insert_eq. Qed.

Lemma docs_of_written_ne collection_name other record d :
  collection_name <> other ->
  docs_of (written collection_name record d) other = docs_of d other.
Proof.
  intros Hne. unfold docs_of, written. simpl. by rewrite lookup_insert_ne.
Qed.

Lemma fault_written collection_name record d :
  fault (written collection_name record d) = fault d.
Proof. done. Qed.

Lemma next_oid_written collection_name record d :
  next_oid (written collection_name record d) = N.succ (next_oid d).
Proof. done. Qed.



Lemma ids_issued_written collection_name record d :
  ids_issued d -> ids_issued (written collection_name record d).
Proof.
  intros Hd c doc oid Hin Hid. rewrite next_oid_written.
  destruct (decide (collection_name = c)) as [->|Hne].
  - rewrite docs_of_written, elem_of_app, list_elem_of_singleton in Hin.
    destruct Hin as [Hin| ->].
    + specialize (Hd c doc oid Hin Hid). lia.
    + rewrite lookup_insert_eq in Hid. inversion Hid. lia.
  - rewrite docs_of_written_ne in Hin by done.
    specialize (Hd c doc oid Hin Hid). lia.
Qed.

(** The empty filter matches every document. *)
Lemma filter_all (l : list document) : List.filter (matches (Fields [])) l = l.
Proof. induction l as [|x l IH]; [done|]. simpl. by rewrite IH. Qed.

End DatabaseFacts.

(* ===================================================================== *)
(** * Guests and bookings                                                 *)
(* ===================================================================== *)

Module Records.
Import Py Schema Database Main Notions SchemaFacts DatabaseFacts.

Lemma phone_or_id_number_is_spec q doc :
  phone_or_id_number_is q doc = true
  <-> doc !! "phone" = Some (VStr q) \/ doc !! "id_number" = Some (VStr q).
Proof.
  unfold phone_or_id_number_is. rewrite orb_true_iff.
  split; (intros [Hl|Hr]; [left|right]).
  - destruct (doc !! "phone") as [[]|]; try done.
    apply String.eqb_eq in Hl. by subst.
  - destruct (doc !! "id_number") as [[]|]; try done.
    apply String.eqb_eq in Hr. by subst.
  - rewrite Hl. apply String.eqb_refl.
  - rewrite Hr. apply String.eqb_refl.
Qed.

Lemma matches_phone_or_id_number q doc :
  matches (AnyOf [[("phone", q)]; [("id_number", q)]]) doc
  = phone_or_id_number_is q doc.
Proof.
  unfold matches, phone_or_id_number_is, field_is. simpl.
  by rewrite !andb_true_r, orb_false_r.
Qed.

Lemma filter_phone_or_id_number q (l : list document) :
  List.filter (matches (AnyOf [[("phone", q)]; [("id_number", q)]])) l
  = List.filter (phone_or_id_number_is q) l.
Proof.
  induction l as [|x l IH]; [done|].
  cbn [List.filter]. by rewrite IH, matches_phone_or_id_number.
Qed.

Section Handlers.
Context `{Externals}.

Lemma stringify_id_spec doc : identifier_stringified doc (stringify_id doc).
Proof.
  unfold identifier_stringified, stringify_id.
  destruct (doc !! "_id") as [v|] eqn:E; simpl.
  - split; [|by rewrite lookup_insert_eq].
    intros k Hk. by rewrite lookup_insert_ne.
  - by split.
Qed.

Lemma stringify_id_written record oid :
  stringify_id (<["_id" := VObjectId oid]> record)
  = <["_id" := VStr (oid_str oid)]> record.
Proof.
  unfold stringify_id. rewrite lookup_insert_eq. simpl.
  by rewrite insert_insert_eq.
Qed.

Lemma create_guest_ok guest d :
  fault d = None -> guest !! "_id" = None ->
  create_guest guest (Some d)
  = (inr (<["_id" := VStr (oid_str (next_oid d))]> guest),
     Some (written "guest" guest d)).
Proof.
  intros Hf Hid. unfold create_guest, bind.
  rewrite create_document_ok by done. unfold ret.
  by rewrite insert_union_singleton_r.
Qed.

Lemma create_booking_ok booking d :
  fault d = None -> booking !! "_id" = None ->
  create_booking booking (Some d)
  = (inr (<["_id" := VStr (oid_str (next_oid d))]> booking),
     Some (written "booking" booking d)).
Proof.
  intros Hf Hid. unfold create_booking, bind.
  rewrite create_document_ok by done. unfold ret.
  by rewrite insert_union_singleton_r.
Qed.

Lemma list_guests_filtered s limit d :
  fault d = None -> s <> "" ->
  list_guests (Some s) limit (Some d)
  = (inr (map stringify_id
            (take (Z.to_nat limit)
               (List.filter (phone_or_id_number_is s) (docs_of d "guest")))),
     Some d).
Proof.
  intros Hf Hs. unfold list_guests, bind, truthy.
  apply String.eqb_neq in Hs. rewrite Hs. cbn [negb from_option id].
  rewrite get_documents_ok by done.
  by rewrite filter_phone_or_id_number.
Qed.

Lemma list_guests_unfiltered q limit d :
  fault d = None -> q = None \/ q = Some "" ->
  list_guests q limit (Some d)
  = (inr (map stringify_id (take (Z.to_nat limit) (docs_of d "guest"))), Some d).
Proof.
  intros Hf Hq. unfold list_guests, bind.
  assert (truthy q = false) as -> by (by destruct Hq as [-> | ->]).
  rewrite get_documents_ok by done. by rewrite filter_all.
Qed.

Lemma list_bookings_ok limit d :
  fault d = None ->
  list_bookings limit (Some d)
  = (inr (map stringify_id (take (Z.to_nat limit) (docs_of d "booking"))),
     Some d).
Proof.
  intros Hf. unfold list_bookings, bind.
  rewrite get_documents_ok by done. by rewrite filter_all.
Qed.

(** Whatever the query, a listing shows stored guests only, each with its
    identifier in string form. *)
Lemma list_guests_stringified q limit d :
  fault d = None ->
  exists docs,
    list_guests q limit (Some d) = (inr docs, Some d)
    /\ Forall (fun listed =>
                 exists stored, stored ∈ docs_of d "guest"
                                /\ identifier_stringified stored listed) docs.
Proof.
  intros Hf. unfold list_guests, bind.
  rewrite get_documents_ok by done. eexists. split; [done|].
  apply Forall_forall. intros listed Hin.
  apply list_elem_of_fmap in Hin as (stored & -> & Hin).
  exists stored. split; [|apply stringify_id_spec].
  apply subseteq_take in Hin.
  apply list_elem_of_In, List.filter_In in Hin as [Hin _].
  by apply list_elem_of_In.
Qed.


Lemma POST_api_guests_valid input guest d :
  validate_model Guest input = inr guest -> fault d = None ->
  POST_api_guests (JObj input) (Some d)
  = (if doc_encodable (<["_id" := VStr (oid_str (next_oid d))]> guest)
     then OK (<["_id" := VStr (oid_str (next_oid d))]> guest)
     else InternalServerError encoding_error,
     Some (written "guest" guest d)).
Proof.
  intros Hv Hf.
  assert (Hid : guest !! "_id" = None).
  { apply (validate_model_lookup_None input Guest); [done|].
    by apply (bool_decide_unpack _). }
  unfold POST_api_guests, with_body, respond. rewrite Hv.
  rewrite create_guest_ok by done. by destruct (doc_encodable _).
Qed.

Lemma POST_api_bookings_valid input booking d :
  validate_model Booking input = inr booking -> fault d = None ->
  POST_api_bookings (JObj input) (Some d)
  = (if doc_encodable (<["_id" := VStr (oid_str (next_oid d))]> booking)
     then OK (<["_id" := VStr (oid_str (next_oid d))]> booking)
     else InternalServerError encoding_error,
     Some (written "booking" booking d)).
Proof.
  intros Hv Hf.
  assert (Hid : booking !! "_id" = None).
  { apply (validate_model_lookup_None input Booking); [done|].
    by apply (bool_decide_unpack _). }
  unfold POST_api_bookings, with_body, respond. rewrite Hv.
  rewrite create_booking_ok by done. by destruct (doc_encodable _).
Qed.

End Handlers.
End Records.

Module RecordClaims.
Import Py Schema Database Main Notions SchemaFacts DatabaseFacts Records.

Section Claims.
Context `{Externals}.

Lemma listing_stringified (keep : document -> bool) n (l : list document) :
  Forall (fun listed =>
            exists stored, stored ∈ l /\ identifier_stringified stored listed)
    (map stringify_id (take n (List.filter keep l))).
Proof.
  apply Forall_forall. intros listed Hin.
  apply list_elem_of_fmap in Hin as (stored & -> & Hin).
  exists stored. split; [|apply stringify_id_spec].
  apply subseteq_take in Hin.
  apply list_elem_of_In, List.filter_In in Hin as [Hin _].
  by apply list_elem_of_In.
Qed.

(** The last record of a full listing after a write is the written record
    with its identifier in string form. *)
Lemma last_listing_written collection_name record d limit :
  (length (docs_of d collection_name) < Z.to_nat limit)%nat ->
  last (map stringify_id
          (take (Z.to_nat limit)
             (docs_of (written collection_name record d) collection_name)))
  = Some (<["_id" := VStr (oid_str (next_oid d))]> record).
Proof.
  intros Hlen. rewrite docs_of_written.
  rewrite take_ge by (rewrite length_app; simpl; lia).
  rewrite map_app. simpl. rewrite last_snoc.
  by rewrite stringify_id_written.
Qed.

(** C2 (as amended). For a non-empty query string the guest listing holds, in
    store order, the guest records whose [phone] or whose [id_number] equals
    the query, and no others, cut to the first [limit] of them; all of them
    when no more than [limit] match. With the query absent or empty no filter
    applies and the first [limit] records are listed. *)
Theorem list_guests_filter_up_to_limit (q : option string) (limit : Z) (d : Db) :
  fault d = None ->
  (forall s, q = Some s -> s <> "" ->
     let selected := List.filter (phone_or_id_number_is s) (docs_of d "guest") in
     list_guests q limit (Some d)
     = (inr (map stringify_id (take (Z.to_nat limit) selected)), Some d)
     /\ (forall doc, doc ∈ selected <->
           doc ∈ docs_of d "guest"
           /\ (doc !! "phone" = Some (VStr s) \/ doc !! "id_number" = Some (VStr s)))
     /\ ((length selected <= Z.to_nat limit)%nat ->
         list_guests q limit (Some d) = (inr (map stringify_id selected), Some d)))
  /\ (q = None \/ q = Some "" ->
      list_guests q limit (Some d)
      = (inr (map stringify_id (take (Z.to_nat limit) (docs_of d "guest"))),
         Some d)).
Proof.
  intros Hf. split.
  - intros s -> Hs selected. split; [by apply list_guests_filtered|]. split.
    + intros doc. unfold selected.
      rewrite !list_elem_of_In, List.filter_In, phone_or_id_number_is_spec.
      done.
    + intros Hlen. rewrite list_guests_filtered by done.
      by rewrite take_ge.
  - intros Hq. by apply list_guests_unfiltered.
Qed.

(** C5. Every record the guest and booking listings return is a stored record
    whose identifier has been replaced by its string form, all other fields
    being as stored; for a store-assigned identifier that is the string the
    create operation returned, so a record just created is listed exactly as
    the create operation answered it. *)
Theorem listed_identifiers_in_string_form
    (d : Db) (q : option string) (limit : Z) (guest booking : document) :
  fault d = None -> guest !! "_id" = None -> booking !! "_id" = None ->
  (exists docs,
     list_guests q limit (Some d) = (inr docs, Some d)
     /\ Forall (fun listed =>
                  exists stored, stored ∈ docs_of d "guest"
                                 /\ identifier_stringified stored listed) docs)
  /\ (exists docs,
        list_bookings limit (Some d) = (inr docs, Some d)
        /\ Forall (fun listed =>
                     exists stored, stored ∈ docs_of d "booking"
                                    /\ identifier_stringified stored listed) docs)
  /\ (forall stored oid,
        stored !! "_id" = Some (VObjectId oid) ->
        stringify_id stored !! "_id" = Some (VStr (oid_str oid)))
  /\ (exists gid d' docs,
        create_guest guest (Some d) = (inr (<["_id" := VStr gid]> guest), Some d')
        /\ list_guests None (Z.of_nat (S (length (docs_of d "guest")))) (Some d')
           = (inr docs, Some d')
        /\ last docs = Some (<["_id" := VStr gid]> guest))
  /\ (exists bid d' docs,
        create_booking booking (Some d)
        = (inr (<["_id" := VStr bid]> booking), Some d')
        /\ list_bookings (Z.of_nat (S (length (docs_of d "booking")))) (Some d')
           = (inr docs, Some d')
        /\ last docs = Some (<["_id" := VStr bid]> booking)).
Proof.
  intros Hf Hg Hb. repeat split.
  - by apply list_guests_stringified.
  - rewrite list_bookings_ok by done. eexists. split; [done|].
    pose proof (listing_stringified (matches (Fields [])) (Z.to_nat limit)
                  (docs_of d "booking")) as Hl.
    by rewrite filter_all in Hl.
  - intros stored oid Hid. unfold stringify_id. rewrite Hid.
    by rewrite lookup_insert_eq.
  - exists (oid_str (next_oid d)), (written "guest" guest d). eexists.
    split; [by apply create_guest_ok|]. split.
    + apply list_guests_unfiltered; [done | by left].
    + apply last_listing_written. lia.
  - exists (oid_str (next_oid d)), (written "booking" booking d). eexists.
    split; [by apply create_booking_ok|]. split.
    + by apply list_bookings_ok.
    + apply last_listing_written. lia.
Qed.


End Claims.
End RecordClaims.

(* ===================================================================== *)
(** * Notifications                                                       *)
(* ===================================================================== *)

Module Notify.
Import Py Schema Database Main Notions SchemaFacts DatabaseFacts.

Section Claims.
Context `{Externals}.

Lemma Notification_valid payload :
  channel payload ∈ ["sms"; "whatsapp"] ->
  validate_model Notification
    [("channel", JStr (channel payload)); ("to", JStr (to payload));
     ("message", JStr (message payload))]
  = inr (queued_notification payload).
Proof.
  destruct payload as [c t m]. simpl. intros Hc.
  unfold validate_model, Notification, queued_notification.
  rewrite !elem_of_cons in Hc.
  destruct Hc as [-> | [-> | Hc]]; [done | done |].
  by apply not_elem_of_nil in Hc.
Qed.

(** C1 (as amended). For a send request whose channel is [sms] or [whatsapp],
    with the store accepting the write, one Notification record is persisted
    with status ["queued"], and the caller is answered with the identifier of
    that record together with the status ["sent"]. *)
Theorem send_notification_queues_and_answers_sent
    (payload : SendNotificationPayload) (d : Db) :
  fault d = None ->
  channel payload ∈ ["sms"; "whatsapp"] ->
  exists notif d',
    send_notification payload (Some d)
    = (inr (MkNotifyResult "sent" (oid_str (next_oid d))), Some d')
    /\ docs_of d' "notification"
       = docs_of d "notification" ++ [<["_id" := VObjectId (next_oid d)]> notif]
    /\ notif !! "status" = Some (VStr "queued")
    /\ notif !! "channel" = Some (VStr (channel payload))
    /\ notif !! "to" = Some (VStr (to payload))
    /\ notif !! "message" = Some (VStr (message payload)).
Proof.
  intros Hf Hc.
  exists (queued_notification payload),
    (written "notification" (queued_notification payload) d).
  split; [|split; [apply docs_of_written|]].
  - unfold send_notification, bind, lift.
    rewrite Notification_valid by done.
    by rewrite create_document_ok.
  - unfold queued_notification. by simplify_map_eq.
Qed.

End Claims.

(** C1, refuted as stated: a send request is answered with status ["sent"]. *)
Lemma send_notification_answers_sent :
  ~ (forall (E : Externals) payload db r db',
       send_notification payload db = (inr r, db') -> status r <> "sent").
Proof.
  intros Hclaim.
  apply (Hclaim Reference.externals
           (MkPayload "sms" "+919999999999" "Welcome")
           (Some (MkDb None ∅ 0 None))
           (MkNotifyResult "sent" (oid_str 0))
           (Some (written "notification"
                    (queued_notification
                       (MkPayload "sms" "+919999999999" "Welcome"))
                    (MkDb None ∅ 0 None))));
    reflexivity.
Qed.

End Notify.

(* ===================================================================== *)
(** * Document extraction                                                 *)
(* ===================================================================== *)

Module Ocr.
Import Py Schema Database Main Notions DatabaseFacts.

Lemma ocr_extract_ok file now d :
  fault d = None ->
  ocr_extract file now (Some d)
  = (match filename file with
     | Some fname => inr (mocked fname)
     | None => inl (AttributeError "'NoneType' object has no attribute 'lower'")
     end,
     Some (written "iddocument" (audit_record file now) d)).
Proof.
  intros Hf. unfold ocr_extract, bind. fold (audit_record file now).
  rewrite create_document_ok by done.
  by destruct (filename file).
Qed.

Lemma audit_record_lookup file now :
  let audit := audit_record file now in
  audit !! "file_name" = Some (opt_str (filename file))
  /\ audit !! "filename" = Some (opt_str (filename file))
  /\ audit !! "content_type" = Some (opt_str (content_type file))
  /\ audit !! "received_at" = Some (VStr now)
  /\ audit !! "extracted" = Some (VDict [])
  /\ audit !! "raw_text" = Some VNone.
Proof.
  unfold audit_record. repeat split;
    rewrite lookup_union; by simplify_map_eq.
Qed.

Lemma audit_record_keys file now k :
  is_Some (audit_record file now !! k) ->
  k ∈ ["file_name"; "extracted"; "raw_text";
       "filename"; "content_type"; "received_at"].
Proof.
  unfold audit_record. rewrite lookup_union_is_Some.
  rewrite !lookup_insert_is_Some', !lookup_empty, !elem_of_cons.
  intros [Hk|Hk]; repeat (destruct Hk as [<-|Hk]; [tauto|]);
    by destruct Hk.
Qed.

(** C8. With the store accepting the write, every extraction request appends
    one audit record to the [iddocument] collection, carrying the upload's
    file name, content type and receipt time. The record is written before
    the extraction step: it is there when the extraction answers and also
    when it fails (an upload without a name). *)
Theorem ocr_extract_always_audits (file : UploadFile) (now : string) (d : Db) :
  fault d = None ->
  exists outcome d' audit,
    ocr_extract file now (Some d) = (outcome, Some d')
    /\ docs_of d' "iddocument" = docs_of d "iddocument" ++ [audit]
    /\ audit !! "file_name" = Some (opt_str (filename file))
    /\ audit !! "content_type" = Some (opt_str (content_type file))
    /\ audit !! "received_at" = Some (VStr now)
    /\ outcome
       = match filename file with
         | Some fname => inr (mocked fname)
         | None =>
             inl (AttributeError "'NoneType' object has no attribute 'lower'")
         end.
Proof.
  intros Hf. eexists _, _, _. split; [by apply ocr_extract_ok|].
  split; [apply docs_of_written|].
  destruct (audit_record_lookup file now) as (H1 & H2 & H3 & H4 & H5 & H6).
  rewrite !lookup_insert_ne by done. by repeat split.
Qed.

(** C10. The audit record an extraction request persists has an empty
    [extracted] mapping and a null [raw_text]; besides these and the store's
    identifier it holds the file name (under two keys), the content type and
    the receipt time, and no other key: none of the mocked fields is
    written. *)
Theorem audit_record_holds_metadata_only
    (file : UploadFile) (now : string) (d : Db) :
  fault d = None ->
  exists outcome d' audit,
    ocr_extract file now (Some d) = (outcome, Some d')
    /\ docs_of d' "iddocument" = docs_of d "iddocument" ++ [audit]
    /\ audit !! "extracted" = Some (VDict [])
    /\ audit !! "raw_text" = Some VNone
    /\ audit !! "file_name" = Some (opt_str (filename file))
    /\ audit !! "filename" = Some (opt_str (filename file))
    /\ audit !! "content_type" = Some (opt_str (content_type file))
    /\ audit !! "received_at" = Some (VStr now)
    /\ audit !! "_id" = Some (VObjectId (next_oid d))
    /\ (forall k, is_Some (audit !! k) ->
          k ∈ ["_id"; "file_name"; "extracted"; "raw_text";
               "filename"; "content_type"; "received_at"]).
Proof.
  intros Hf. eexists _, _, _. split; [by apply ocr_extract_ok|].
  split; [apply docs_of_written|].
  destruct (audit_record_lookup file now) as (H1 & H2 & H3 & H4 & H5 & H6).
  rewrite !lookup_insert_ne by done. rewrite lookup_insert_eq.
  repeat (split; [done|]).
  intros k Hk. apply lookup_insert_is_Some' in Hk as [<-|Hk].
  - apply list_elem_of_here.
  - apply list_elem_of_further. by apply (audit_record_keys file now).
Qed.

(** C9 (as amended). Two extraction requests for named uploads, with the
    store accepting the writes, are both answered, and the answers agree on
    [id_number], [full_name], [dob] and [raw_text], which are fixed; their
    [id_type] is ["aadhaar"] when the lower-cased file name ends in [.jpg],
    [.png] or [.jpeg] and ["pan"] otherwise, so the answers are identical
    whenever the two file names agree on that. *)
Theorem ocr_result_fixed_but_id_type
    (file1 file2 : UploadFile) (fname1 fname2 now1 now2 : string) (d1 d2 : Db) :
  filename file1 = Some fname1 -> filename file2 = Some fname2 ->
  fault d1 = None -> fault d2 = None ->
  exists r1 r2 db1' db2',
    ocr_extract file1 now1 (Some d1) = (inr r1, db1')
    /\ ocr_extract file2 now2 (Some d2) = (inr r2, db2')
    /\ id_number r1 = Some "XXXX-XXXX-1234" /\ id_number r2 = id_number r1
    /\ full_name r1 = Some "Sample Guest" /\ full_name r2 = full_name r1
    /\ dob r1 = Some "1990-01-01" /\ dob r2 = dob r1
    /\ raw_text r1 = Some "Mocked OCR content" /\ raw_text r2 = raw_text r1
    /\ id_type r1 = Some (if image_name fname1 then "aadhaar" else "pan")
    /\ id_type r2 = Some (if image_name fname2 then "aadhaar" else "pan")
    /\ (image_name fname1 = image_name fname2 -> r1 = r2).
Proof.
  intros Hn1 Hn2 Hf1 Hf2.
  exists (mocked fname1), (mocked fname2).
  eexists _, _.
  rewrite !ocr_extract_ok by done. rewrite Hn1, Hn2.
  repeat (split; [reflexivity|]).
  intros Heq. unfold mocked. by rewrite Heq.
Qed.

(** C9, refuted as stated: two uploads that differ in the extension of the
    file name are answered with different extracted fields. *)
Lemma ocr_result_depends_on_file_name :
  ~ (forall file1 file2 now1 now2 db1 db2 db1' db2' r1 r2,
       ocr_extract file1 now1 db1 = (inr r1, db1') ->
       ocr_extract file2 now2 db2 = (inr r2, db2') ->
       (id_type r1, id_number r1, full_name r1, dob r1, raw_text r1)
       = (id_type r2, id_number r2, full_name r2, dob r2, raw_text r2)).
Proof.
  intros Hclaim.
  pose (db := Some (MkDb None ∅ 0 None)).
  pose (file1 := MkUploadFile (Some "card.JPG") (Some "image/jpeg") "").
  pose (file2 := MkUploadFile (Some "card.pdf") (Some "application/pdf") "").
  pose (now := "2024-01-01T14:00:00").
  specialize (Hclaim file1 file2 now now db db
                (Some (written "iddocument" (audit_record file1 now)
                         (MkDb None ∅ 0 None)))
                (Some (written "iddocument" (audit_record file2 now)
                         (MkDb None ∅ 0 None)))
                (mocked "card.JPG") (mocked "card.pdf") eq_refl eq_refl).
  vm_compute in Hclaim. discriminate Hclaim.
Qed.

End Ocr.

(* ===================================================================== *)
(** * Health                                                              *)
(* ===================================================================== *)

Module HealthCheck.
Import Py Database Main.

Lemma length_take_10 (names : list string) : length (take 10 names) <= 10.
Proof. rewrite length_take. lia. Qed.

(** C4. The status query answers with a response object whatever the state of
    the storage, and raises nothing: with no storage configured it says so;
    with a storage whose listing fails it describes the failure in the
    [database] entry (at most fifty characters of it) and reports no
    collection; otherwise it reports the first ten collection names at most. *)
Theorem test_database_always_answers
    (db : handle) (environ : gmap string string) :
  exists r,
    test_database db environ = inr r
    /\ length (collections r) <= 10
    /\ backend r = "✅ Running"
    /\ database r
       = match db with
         | None => "⚠️  Available but not initialized"
         | Some d =>
             match list_collection_names d with
             | inl e => "⚠️  Connected but Error: " +:+ str_take 50 (exn_str e)
             | inr _ => "✅ Connected & Working"
             end
         end
    /\ collections r
       = match db with
         | None => []
         | Some d =>
             match list_collection_names d with
             | inl _ => []
             | inr names => take 10 names
             end
         end
    /\ connection_status r
       = match db with None => "Not Connected" | Some _ => "Connected" end.
Proof.
  unfold test_database, test_database_body.
  destruct db as [d|].
  - destruct (list_collection_names d) as [e|names].
    + eexists. split; [reflexivity|].
      cbn -[str_take take]. repeat split; lia.
    + eexists. split; [reflexivity|].
      cbn -[str_take take]. repeat split. apply length_take_10.
  - eexists. split; [reflexivity|].
    cbn -[str_take take]. repeat split; lia.
Qed.

End HealthCheck.

(* ===================================================================== *)
(** * The handlers on concrete requests                                   *)
(* ===================================================================== *)

Module Runs.
Import Py Schema Database Main Notions SchemaFacts DatabaseFacts Records.
Import CreateValidation RecordClaims Notify Ocr.
Import Reference Scenario.

Example parse_check_in :
  parse_datetime "2024-01-01T14:00:00" = Some (DateTime 1704117600000000 None).
Proof. reflexivity. Qed.

Example parse_aware :
  parse_datetime "2024-01-02 11:00:00+05:30"
  = Some (DateTime 1704173400000000 (Some 19800%Z)).
Proof. reflexivity. Qed.

Example parse_fraction :
  parse_datetime "2024-01-01T14:00:00.25Z"
  = Some (DateTime 1704117600250000 (Some 0%Z)).
Proof. reflexivity. Qed.

Example parse_leap_day :
  parse_datetime "2023-02-29" = None
  /\ parse_datetime "2024-02-29"
     = Some (DateTime 1709164800000000 None).
Proof. split; reflexivity. Qed.

Example emails :
  check_email "Asha.Rao@Example.ORG" = Some "Asha.Rao@example.org"
  /\ check_email "asha.example.org" = None
  /\ check_email "a@b" = None
  /\ check_email "a@@b.c" = None
  /\ check_email ".a@b.c" = None.
Proof. repeat split; reflexivity. Qed.

Example asha_valid : validate_model Guest asha_input = inr asha.
Proof. reflexivity. Qed.

Example booking_204_valid :
  validate_model Booking (booking_input (JInt 1200)) = inr booking_204.
Proof. reflexivity. Qed.

(** The end-to-end scenario: a guest, then a booking for that guest, then the
    listing of bookings. *)
Example end_to_end :
  exists d1 d2 listed,
    POST_api_guests (JObj asha_input) (Some db0)
    = (OK (<["_id" := VStr "0x0"]> asha), Some d1)
    /\ POST_api_bookings (JObj (booking_input (JInt 1200))) (Some d1)
       = (OK (<["_id" := VStr "0x1"]> booking_204), Some d2)
    /\ GET_api_bookings (Some 50%Z) (Some d2) = (OK [listed], Some d2)
    /\ listed !! "_id" = Some (VStr "0x1")
    /\ listed !! "status" = Some (VStr "booked")
    /\ listed !! "source" = Some (VStr "walkin").
Proof.
  exists (written "guest" asha db0),
    (written "booking" booking_204 (written "guest" asha db0)),
    (<["_id" := VStr "0x1"]> booking_204).
  repeat split; vm_compute; reflexivity.
Qed.

(** Two violations in one body are both reported. *)
Example two_violations :
  POST_api_guests
    (JObj [("email", JStr "asha.example.org"); ("id_type", JStr "voter")])
    (Some db0)
  = (UnprocessableEntity
       [LineError ["body"; "full_name"] missing;
        LineError ["body"; "email"] value_error;
        LineError ["body"; "id_type"] literal_error],
     Some db0).
Proof. reflexivity. Qed.

(** An unconfigured store refuses the write. *)
Example create_guest_unconfigured :
  POST_api_guests (JObj asha_input) None
  = (InternalServerError StoreUnavailable, None).
Proof. reflexivity. Qed.

(** A channel outside the enumeration fails inside the handler; nothing is
    stored. *)
Example notify_bad_channel :
  POST_api_notify
    (JObj [("channel", JStr "email"); ("to", JStr "a@b"); ("message", JStr "hi")])
    (Some db0)
  = (InternalServerError
       (ValidationError [LineError ["channel"] literal_error]),
     Some db0).
Proof. reflexivity. Qed.

(** ** The theorems at concrete inputs *)


(** Once the destination is given, the channel fails inside the handler. *)
Example notify_channel_fails_late :
  POST_api_notify (JObj (("to", JStr "+919999999999") :: email_without_destination))
    (Some db0)
  = (InternalServerError
       (ValidationError [LineError ["channel"] literal_error]),
     Some db0).
Proof. reflexivity. Qed.

(** A guest body without a name and with a float that is not finite: the
    missing-field line echoes the whole body and cannot be rendered. *)
Example missing_name_with_infinity :
  POST_api_guests (JObj [("meta", JObj [("x", JFloat (S754_infinity false))])])
    (Some db0)
  = (InternalServerError encoding_error, Some db0).
Proof. reflexivity. Qed.

(** A valid guest whose [meta] holds such a float is stored, and the answer
    cannot be rendered. *)
Example infinity_in_meta_stored_and_not_answered :
  exists d',
    POST_api_guests
      (JObj (("meta", JObj [("x", JFloat (S754_infinity false))]) :: asha_input))
      (Some db0)
    = (InternalServerError encoding_error, Some d')
    /\ length (docs_of d' "guest") = 1.
Proof. eexists. split; reflexivity. Qed.

(** A rate that is not a number is rejected like one below zero. *)
Example nan_rate_rejected :
  validate_model Booking (booking_input (JFloat S754_nan))
  = inl [LineError ["rate"] greater_than_equal].
Proof. reflexivity. Qed.



(** The rate [-Infinity] all the same leaves the store as it was. *)
Example minus_infinity_rate_not_stored :
  POST_api_bookings (JObj (booking_input (JFloat minus_infinity))) (Some db0)
  = (InternalServerError encoding_error, Some db0).
Proof. reflexivity. Qed.


Lemma filter_up_to_limit_for_two_guests :
  fault db_two_guests = None
  /\ (forall s, Some "+919999999999" = Some s -> s <> "" ->
        let selected :=
          List.filter (phone_or_id_number_is s) (docs_of db_two_guests "guest") in
        list_guests (Some "+919999999999") 1 (Some db_two_guests)
        = (inr (map stringify_id (take (Z.to_nat 1) selected)), Some db_two_guests)
        /\ (forall doc, doc ∈ selected <->
              doc ∈ docs_of db_two_guests "guest"
              /\ (doc !! "phone" = Some (VStr s)
                  \/ doc !! "id_number" = Some (VStr s)))
        /\ ((length selected <= Z.to_nat 1)%nat ->
            list_guests (Some "+919999999999") 1 (Some db_two_guests)
            = (inr (map stringify_id selected), Some db_two_guests)))
  /\ (Some "+919999999999" = None \/ Some "+919999999999" = Some "" ->
      list_guests (Some "+919999999999") 1 (Some db_two_guests)
      = (inr (map stringify_id
                (take (Z.to_nat 1) (docs_of db_two_guests "guest"))),
         Some db_two_guests)).
Proof.
  split; [reflexivity|].
  apply (list_guests_filter_up_to_limit (Some "+919999999999") 1 db_two_guests).
  reflexivity.
Defined.

(** C2, refuted as stated: with two guests on the queried phone number and a
    limit of one, the second of them is not in the listing. *)
Lemma list_guests_limit_drops_a_match :
  ~ (forall (E : Externals) q limit d docs,
       q <> "" ->
       list_guests (Some q) limit (Some d) = (inr docs, Some d) ->
       forall stored,
         stored ∈ docs_of d "guest" ->
         stored !! "phone" = Some (VStr q) \/ stored !! "id_number" = Some (VStr q) ->
         stringify_id stored ∈ docs).
Proof.
  intros Hclaim.
  assert (Hq : "+919999999999" <> "") by discriminate.
  specialize (Hclaim externals "+919999999999" 1%Z db_two_guests
                [<["_id" := VStr "0x0"]> asha] Hq eq_refl
                (<["_id" := VObjectId 1]> ravi)).
  assert (Hin : <["_id" := VObjectId 1]> ravi ∈ docs_of db_two_guests "guest").
  { change (docs_of db_two_guests "guest")
      with [<["_id" := VObjectId 0]> asha; <["_id" := VObjectId 1]> ravi].
    apply list_elem_of_further, list_elem_of_here. }
  specialize (Hclaim Hin (or_introl eq_refl)).
  apply list_elem_of_singleton in Hclaim.
  apply (f_equal (fun doc => doc !! "full_name")) in Hclaim.
  vm_compute in Hclaim. discriminate Hclaim.
Qed.

Lemma listed_identifiers_for_two_guests :
  fault db_two_guests = None /\ asha !! "_id" = None
  /\ booking_204 !! "_id" = None
  /\ (exists docs,
        list_guests None 25 (Some db_two_guests) = (inr docs, Some db_two_guests)
        /\ Forall (fun listed =>
                     exists stored, stored ∈ docs_of db_two_guests "guest"
                                    /\ identifier_stringified stored listed) docs)
  /\ (exists docs,
        list_bookings 25 (Some db_two_guests) = (inr docs, Some db_two_guests)
        /\ Forall (fun listed =>
                     exists stored, stored ∈ docs_of db_two_guests "booking"
                                    /\ identifier_stringified stored listed) docs)
  /\ (forall stored oid,
        stored !! "_id" = Some (VObjectId oid) ->
        stringify_id stored !! "_id" = Some (VStr (oid_str oid)))
  /\ (exists gid d' docs,
        create_guest asha (Some db_two_guests)
        = (inr (<["_id" := VStr gid]> asha), Some d')
        /\ list_guests None
             (Z.of_nat (S (length (docs_of db_two_guests "guest")))) (Some d')
           = (inr docs, Some d')
        /\ last docs = Some (<["_id" := VStr gid]> asha))
  /\ (exists bid d' docs,
        create_booking booking_204 (Some db_two_guests)
        = (inr (<["_id" := VStr bid]> booking_204), Some d')
        /\ list_bookings
             (Z.of_nat (S (length (docs_of db_two_guests "booking")))) (Some d')
           = (inr docs, Some d')
        /\ last docs = Some (<["_id" := VStr bid]> booking_204)).
Proof.
  split; [reflexivity|]. split; [reflexivity|]. split; [reflexivity|].
  apply (listed_identifiers_in_string_form db_two_guests None 25 asha
           booking_204); reflexivity.
Defined.


Lemma welcome_queued_and_answered_sent :
  fault db0 = None
  /\ channel welcome ∈ ["sms"; "whatsapp"]
  /\ exists notif d',
       send_notification welcome (Some db0)
       = (inr (MkNotifyResult "sent" (oid_str (next_oid db0))), Some d')
       /\ docs_of d' "notification"
          = docs_of db0 "notification"
              ++ [<["_id" := VObjectId (next_oid db0)]> notif]
       /\ notif !! "status" = Some (VStr "queued")
       /\ notif !! "channel" = Some (VStr (channel welcome))
       /\ notif !! "to" = Some (VStr (to welcome))
       /\ notif !! "message" = Some (VStr (message welcome)).
Proof.
  assert (Hc : channel welcome ∈ ["sms"; "whatsapp"])
    by apply list_elem_of_further, list_elem_of_here.
  split; [reflexivity|]. split; [exact Hc|].
  exact (send_notification_queues_and_answers_sent welcome db0 eq_refl Hc).
Defined.

Lemma nameless_upload_audited :
  fault db0 = None
  /\ exists outcome d' audit,
       ocr_extract nameless noon (Some db0) = (outcome, Some d')
       /\ docs_of d' "iddocument" = docs_of db0 "iddocument" ++ [audit]
       /\ audit !! "file_name" = Some (opt_str (filename nameless))
       /\ audit !! "content_type" = Some (opt_str (content_type nameless))
       /\ audit !! "received_at" = Some (VStr noon)
       /\ outcome
          = match filename nameless with
            | Some fname => inr (mocked fname)
            | None =>
                inl (AttributeError "'NoneType' object has no attribute 'lower'")
            end.
Proof.
  split; [reflexivity|].
  apply (ocr_extract_always_audits nameless noon db0). reflexivity.
Defined.

Lemma scan_audit_holds_metadata_only :
  fault db0 = None
  /\ exists outcome d' audit,
       ocr_extract scan noon (Some db0) = (outcome, Some d')
       /\ docs_of d' "iddocument" = docs_of db0 "iddocument" ++ [audit]
       /\ audit !! "extracted" = Some (VDict [])
       /\ audit !! "raw_text" = Some VNone
       /\ audit !! "file_name" = Some (opt_str (filename scan))
       /\ audit !! "filename" = Some (opt_str (filename scan))
       /\ audit !! "content_type" = Some (opt_str (content_type scan))
       /\ audit !! "received_at" = Some (VStr noon)
       /\ audit !! "_id" = Some (VObjectId (next_oid db0))
       /\ (forall k, is_Some (audit !! k) ->
             k ∈ ["_id"; "file_name"; "extracted"; "raw_text";
                  "filename"; "content_type"; "received_at"]).
Proof.
  split; [reflexivity|].
  apply (audit_record_holds_metadata_only scan noon db0). reflexivity.
Defined.

Lemma scan_and_photo_answered_alike :
  filename scan = Some "aadhaar-front.JPG"
  /\ filename photo = Some "pan-card.png"
  /\ fault db0 = None
  /\ exists r1 r2 db1' db2',
       ocr_extract scan noon (Some db0) = (inr r1, db1')
       /\ ocr_extract photo noon (Some db0) = (inr r2, db2')
       /\ id_number r1 = Some "XXXX-XXXX-1234" /\ id_number r2 = id_number r1
       /\ full_name r1 = Some "Sample Guest" /\ full_name r2 = full_name r1
       /\ dob r1 = Some "1990-01-01" /\ dob r2 = dob r1
       /\ raw_text r1 = Some "Mocked OCR content" /\ raw_text r2 = raw_text r1
       /\ id_type r1
          = Some (if image_name "aadhaar-front.JPG" then "aadhaar" else "pan")
       /\ id_type r2
          = Some (if image_name "pan-card.png" then "aadhaar" else "pan")
       /\ (image_name "aadhaar-front.JPG" = image_name "pan-card.png" -> r1 = r2).
Proof.
  split; [reflexivity|]. split; [reflexivity|]. split; [reflexivity|].
  apply (ocr_result_fixed_but_id_type scan photo
           "aadhaar-front.JPG" "pan-card.png" noon noon db0 db0);
    reflexivity.
Defined.

End Runs.

(* ===================================================================== *)
(** * Validated models                                                    *)
(* ===================================================================== *)

Module ModelFacts.
Import Py Schema Database Main Notions App SchemaFacts.

Lemma SCHEMAS_NoDup (model : list field) :
  model ∈ SCHEMAS -> NoDup (fname <$> model).
Proof.
  unfold SCHEMAS. rewrite !elem_of_cons.
  intros [-> | [-> | [-> | [-> | Hm]]]];
    [| | | | by apply not_elem_of_nil in Hm];
    by apply (bool_decide_unpack _).
Qed.

Section Facts.
Context `{Externals}.

Lemma field_value_violation input f :
  field_violation input f = None <-> is_Some (field_value input f).
Proof.
  unfold field_violation, field_value.
  destruct (obj_get (fname f) input) as [j|].
  - destruct (validate_type (ftyp f) j); split; try done; by intros [? ?].
  - destruct (fdef f); split; try done; by intros [? ?].
Qed.

(** A key that names no field is neither added nor changed by the loop. *)
Lemma fold_validate_lookup_other input (fields : list field) acc k :
  k ∉ fname <$> fields ->
  (fold_left (validate_field input) fields acc).2 !! k = acc.2 !! k.
Proof.
  revert acc. induction fields as [|f fields IH]; intros [errors out] Hk;
    [done|].
  cbn [fold_left]. rewrite fmap_cons, not_elem_of_cons in Hk.
  destruct Hk as [Hne Hk]. rewrite IH by done.
  unfold validate_field.
  destruct (obj_get (fname f) input) as [j|].
  - destruct (validate_type (ftyp f) j); simpl; [done|].
    by rewrite lookup_insert_ne.
  - destruct (fdef f); simpl; [done|]. by rewrite lookup_insert_ne.
Qed.

Lemma validate_field_lookup input errors out f :
  (validate_field input (errors, out) f).2 !! fname f
  = match field_value input f with
    | Some v => Some v
    | None => out !! fname f
    end.
Proof.
  unfold validate_field, field_value.
  destruct (obj_get (fname f) input) as [j|].
  - destruct (validate_type (ftyp f) j); simpl; [done|].
    by rewrite lookup_insert_eq.
  - destruct (fdef f); simpl; [done|]. by rewrite lookup_insert_eq.
Qed.

Lemma fold_validate_lookup input (fields : list field) acc f :
  NoDup (fname <$> fields) -> f ∈ fields ->
  (fold_left (validate_field input) fields acc).2 !! fname f
  = match field_value input f with
    | Some v => Some v
    | None => acc.2 !! fname f
    end.
Proof.
  revert acc. induction fields as [|f0 fields IH]; intros [errors out] Hnd Hin.
  - by apply not_elem_of_nil in Hin.
  - rewrite fmap_cons in Hnd. apply NoDup_cons in Hnd as [Hf0 Hnd].
    cbn [fold_left]. apply elem_of_cons in Hin as [-> | Hin].
    + rewrite fold_validate_lookup_other by done.
      apply validate_field_lookup.
    + rewrite IH by done.
      destruct (field_value input f); [done|].
      assert (Hne : fname f0 <> fname f).
      { intros Heq. apply Hf0. rewrite Heq. by apply list_elem_of_fmap_2. }
      unfold validate_field.
      destruct (obj_get (fname f0) input) as [j|].
      * destruct (validate_type (ftyp f0) j); simpl; [done|].
        by rewrite lookup_insert_ne.
      * destruct (fdef f0); simpl; [done|]. by rewrite lookup_insert_ne.
Qed.

Lemma validate_model_inr input fields m :
  validate_model fields input = inr m ->
  m = (fold_left (validate_field input) fields ([], ∅)).2
  /\ omap (field_line input) fields = [].
Proof.
  unfold validate_model. intros Hv.
  pose proof (fold_validate_errors input fields ([], ∅)) as Hf.
  destruct (fold_left (validate_field input) fields ([], ∅)) as [[|e es] out];
    [|done]. simpl in Hf. by inversion Hv; subst.
Qed.

Lemma omap_field_line_nil input (fields : list field) :
  omap (field_line input) fields = []
  <-> Forall (fun f => field_violation input f = None) fields.
Proof.
  induction fields as [|f fields IH]; [by split|].
  cbn [omap list_omap]. unfold field_line at 1.
  rewrite Forall_cons.
  destruct (field_violation input f) as [e|]; simpl.
  - split; [done | by intros [? _]].
  - rewrite IH. split; [by split | by intros [_ ?]].
Qed.

Lemma validate_model_lookup input (fields : list field) m f :
  NoDup (fname <$> fields) -> f ∈ fields ->
  validate_model fields input = inr m ->
  is_Some (field_value input f) /\ m !! fname f = field_value input f.
Proof.
  intros Hnd Hin Hv. apply validate_model_inr in Hv as [-> Hnil].
  apply omap_field_line_nil in Hnil.
  rewrite Forall_forall in Hnil. specialize (Hnil f Hin).
  apply field_value_violation in Hnil as [v Hv].
  rewrite fold_validate_lookup by done. rewrite Hv. eauto.
Qed.

Lemma validate_model_keys input (fields : list field) m k :
  NoDup (fname <$> fields) ->
  validate_model fields input = inr m ->
  is_Some (m !! k) <-> k ∈ fname <$> fields.
Proof.
  intros Hnd Hv. split.
  - intros Hk. destruct (decide (k ∈ fname <$> fields)) as [|Hnot]; [done|].
    rewrite (validate_model_lookup_None input fields m k Hv Hnot) in Hk.
    by destruct Hk.
  - intros (f & -> & Hin)%list_elem_of_fmap.
    by destruct (validate_model_lookup input fields m f Hnd Hin Hv) as [Hs ->].
Qed.

End Facts.
End ModelFacts.

Module ModelProperties.
Import Py Schema Database Main Notions App SchemaFacts ModelFacts.

Section Properties.
Context `{Externals}.

(** X1. A body is accepted by model validation exactly when none of the
    model's fields is violated. *)
Theorem accepted_iff_no_field_violated
    (fields : list field) (input : list (string * json)) :
  (exists m, validate_model fields input = inr m)
  <-> Forall (fun f => field_violation input f = None) fields.
Proof.
  rewrite <- omap_field_line_nil. split.
  - intros [m Hv]. by apply validate_model_inr in Hv as [_ Hnil].
  - intros Hnil. unfold validate_model.
    pose proof (fold_validate_errors input fields ([], ∅)) as Hf.
    rewrite Hnil in Hf.
    destruct (fold_left (validate_field input) fields ([], ∅)) as [[|e es] out];
      [eauto | done].
Qed.

(** X2. The dump of a validated entity has exactly the declared fields as
    keys: every declared field is there, with the validated input or else the
    declared default, and no other key is. *)
Theorem validated_model_fields
    (model : list field) (input : list (string * json)) (m : document) :
  model ∈ SCHEMAS ->
  validate_model model input = inr m ->
  (forall k, is_Some (m !! k) <-> k ∈ fname <$> model)
  /\ (forall f, f ∈ model ->
        m !! fname f
        = match obj_get (fname f) input with
          | Some j =>
              match validate_type (ftyp f) j with
              | inr v => Some v
              | inl _ => None
              end
          | None =>
              match fdef f with
              | Default v => Some v
              | Required => None
              end
          end).
Proof.
  intros Hm Hv. apply SCHEMAS_NoDup in Hm. split.
  - intros k. by apply (validate_model_keys input).
  - intros f Hin.
    by destruct (validate_model_lookup input model m f Hm Hin Hv) as [_ ->].
Qed.





End Properties.
End ModelProperties.

(* ===================================================================== *)
(** * What an answer tells about the request and the store                *)
(* ===================================================================== *)

Module AnswerFacts.
Import Py Schema Database Main Notions App SchemaFacts DatabaseFacts ModelFacts.

Lemma create_document_inr collection_name record db oid db' :
  create_document collection_name record db = (inr oid, db') ->
  exists d, db = Some d /\ fault d = None
            /\ oid = oid_str (next_oid d)
            /\ db' = Some (written collection_name record d).
Proof.
  unfold create_document. destruct db as [d|]; [|done].
  destruct (fault d) eqn:Hf; [done|]. intros Heq. inversion Heq.
  exists d. unfold written. by rewrite Hf.
Qed.

Lemma create_document_inl collection_name record db e db' :
  create_document collection_name record db = (inl e, db') ->
  db' = db
  /\ (db = None /\ e = StoreUnavailable
      \/ exists d msg, db = Some d /\ fault d = Some msg /\ e = StoreWriteError msg).
Proof.
  unfold create_document. destruct db as [d|].
  - destruct (fault d) as [msg|] eqn:Hf; [|done]. intros Heq. inversion Heq.
    split; [done|]. right. by exists d, msg.
  - intros Heq. inversion Heq. split; [done|]. by left.
Qed.

Lemma get_documents_state collection_name filt limit db :
  (get_documents collection_name filt limit db).2 = db.
Proof.
  unfold get_documents. destruct db as [d|]; [|done]. by destruct (fault d).
Qed.

Lemma existsb_eqb_elem (s : string) (allowed : list string) :
  existsb (String.eqb s) allowed = true <-> s ∈ allowed.
Proof.
  rewrite existsb_exists. split.
  - intros (x & Hin & Heq). apply String.eqb_eq in Heq. subst.
    by apply list_elem_of_In.
  - intros Hin. exists s. split; [by apply list_elem_of_In|].
    apply String.eqb_refl.
Qed.

Section Facts.
Context `{Externals}.

Lemma unprocessable_not_OK {A} detail inputs db (a : A) db' :
  unprocessable detail inputs db <> (OK a, db').
Proof. unfold unprocessable. by destruct (forallb finite_json inputs). Qed.

Lemma unprocessable_state {A} detail inputs db :
  (@unprocessable A detail inputs db).2 = db.
Proof. unfold unprocessable. by destruct (forallb finite_json inputs). Qed.

Lemma with_body_OK {A} (encodable : A -> bool) (model : list field)
    (body : json) (handler : document -> SE handle A) db a db' :
  with_body encodable model body handler db = (OK a, db') ->
  exists input m, body = JObj input
                  /\ validate_model model input = inr m
                  /\ handler m db = (inr a, db')
                  /\ encodable a = true.
Proof.
  unfold with_body.
  destruct body as [| | | | |?|input];
    try (intros Habs; by apply unprocessable_not_OK in Habs).
  destruct (validate_model model input) as [errors|m] eqn:Hv;
    [intros Habs; by apply unprocessable_not_OK in Habs|].
  unfold respond. destruct (handler m db) as [[e|a'] db''] eqn:Hh; [done|].
  destruct (encodable a') eqn:He; [|done].
  intros Heq. inversion Heq; subst. by exists input, m.
Qed.

Lemma respond_state {A} (encodable : A -> bool) (m : SE handle A) db :
  (respond encodable m db).2 = (m db).2.
Proof.
  unfold respond. destruct (m db) as [[e|a] db']; [done|].
  by destruct (encodable a).
Qed.

Lemma with_body_state {A} (encodable : A -> bool) (model : list field)
    (body : json) (handler : document -> SE handle A) db :
  (with_body encodable model body handler db).2 = db
  \/ exists input m, body = JObj input
                     /\ validate_model model input = inr m
                     /\ (with_body encodable model body handler db).2
                        = (handler m db).2.
Proof.
  unfold with_body.
  destruct body as [| | | | |?|input]; try (left; apply unprocessable_state).
  destruct (validate_model model input) as [errors|m] eqn:Hv;
    [left; apply unprocessable_state|].
  right. exists input, m. split; [done|]. split; [done|].
  apply respond_state.
Qed.

Lemma validated_literal allowed j v :
  validate_type (TLiteral allowed) j = inr v ->
  exists s, v = VStr s /\ s ∈ allowed.
Proof.
  cbn. destruct j; try done.
  destruct (existsb (String.eqb s) allowed) eqn:He; [|done].
  intros Heq. inversion Heq. exists s. split; [done|].
  by apply existsb_eqb_elem.
Qed.

Lemma validated_optional_literal allowed j v :
  validate_type (TOptional (TLiteral allowed)) j = inr v ->
  v = VNone \/ exists s, v = VStr s /\ s ∈ allowed.
Proof.
  destruct j as [| | | |s| |]; cbn; intros Hv; try discriminate Hv.
  - left. by inversion Hv.
  - right. destruct (existsb (String.eqb s) allowed) eqn:He; [|done].
    inversion Hv. exists s. split; [done|]. by apply existsb_eqb_elem.
Qed.

Lemma validated_float_ge bound j v :
  validate_type (TFloat (Some bound)) j = inr v ->
  exists f, float_of_json j = inr f /\ v = VFloat f /\ SFleb bound f = true.
Proof.
  cbn. destruct (float_of_json j) as [e|f]; [done|].
  destruct (SFleb bound f) eqn:Hle; [|done].
  intros Heq. inversion Heq. by exists f.
Qed.

End Facts.
End AnswerFacts.

(* ===================================================================== *)
(** * Created guests and bookings                                         *)
(* ===================================================================== *)

Module CreateProperties.
Import Py Schema Database Main Notions App.
Import SchemaFacts DatabaseFacts ModelFacts AnswerFacts Records.

Section Properties.
Context `{Externals}.

Lemma Guest_no_id : "_id" ∉ fname <$> Guest.
Proof. by apply (bool_decide_unpack _). Qed.

Lemma Booking_no_id : "_id" ∉ fname <$> Booking.
Proof. by apply (bool_decide_unpack _). Qed.

Lemma Booking_in_SCHEMAS : Booking ∈ SCHEMAS.
Proof. apply list_elem_of_further, list_elem_of_here. Qed.

Lemma created_record (model : list field) (collection_name : string)
    (body : json) (db db' : handle) (answer : document) :
  "_id" ∉ fname <$> model ->
  with_body doc_encodable model body
    (fun record => bind (create_document collection_name record)
                     (fun oid => ret (record ∪ {["_id" := VStr oid]}))) db
  = (OK answer, db') ->
  exists input record d,
    body = JObj input
    /\ validate_model model input = inr record
    /\ db = Some d /\ fault d = None
    /\ answer = <["_id" := VStr (oid_str (next_oid d))]> record
    /\ db' = Some (written collection_name record d).
Proof.
  intros Hid (input & record & -> & Hv & Hh & _)%with_body_OK.
  unfold bind in Hh.
  destruct (create_document collection_name record db) as [[e|oid] db1] eqn:Hc;
    [done|].
  apply create_document_inr in Hc as (d & -> & Hf & -> & ->).
  unfold ret in Hh. inversion Hh; subst.
  exists input, record, d. repeat (split; [done|]). split; [|done].
  rewrite insert_union_singleton_r; [done|].
  by apply (validate_model_lookup_None input model).
Qed.

(** X4. A create route for guests or bookings answers with success only when
    the body is a JSON object that passes the model and the store has taken
    the record: the answer is the validated model together with the string
    form of the identifier under which the record now ends the collection. *)
Theorem create_answers_only_what_it_stored
    (body : json) (db db' : handle) (answer : document) :
  forall model collection_name route,
    (model, collection_name, route)
      ∈ [(Guest, "guest", POST_api_guests);
         (Booking, "booking", POST_api_bookings)] ->
    route body db = (OK answer, db') ->
    exists input record d d',
      body = JObj input
      /\ validate_model model input = inr record
      /\ db = Some d /\ db' = Some d'
      /\ docs_of d' collection_name
         = docs_of d collection_name
             ++ [<["_id" := VObjectId (next_oid d)]> record]
      /\ answer = <["_id" := VStr (oid_str (next_oid d))]> record
      /\ (forall other, other <> collection_name ->
            docs_of d' other = docs_of d other).
Proof.
  intros model collection_name route Hroute Hok.
  assert (Hcase : exists input record d,
             body = JObj input
             /\ validate_model model input = inr record
             /\ db = Some d /\ fault d = None
             /\ answer = <["_id" := VStr (oid_str (next_oid d))]> record
             /\ db' = Some (written collection_name record d)).
  { rewrite !elem_of_cons in Hroute.
    destruct Hroute as [Heq|[Heq|Habs]];
      [| |by apply not_elem_of_nil in Habs]; inversion Heq; subst.
    - apply (created_record Guest "guest"); [apply Guest_no_id | exact Hok].
    - apply (created_record Booking "booking");
        [apply Booking_no_id | exact Hok]. }
  destruct Hcase as (input & record & d & -> & Hv & -> & Hf & -> & ->).
  exists input, record, d, (written collection_name record d).
  repeat (split; [done|]). split; [apply docs_of_written|]. split; [done|].
  intros other Hne. by apply docs_of_written_ne.
Qed.

(** X5. A booking that the create route accepts has a rate that is not below
    zero, in the answer and in the stored record alike. *)
Theorem created_booking_rate_not_below_zero
    (body : json) (db db' : handle) (answer : document) :
  POST_api_bookings body db = (OK answer, db') ->
  exists rate d d' stored,
    db = Some d /\ db' = Some d'
    /\ last (docs_of d' "booking") = Some stored
    /\ stored !! "rate" = Some (VFloat rate)
    /\ answer !! "rate" = Some (VFloat rate)
    /\ SFltb rate zero = false.
Proof.
  intros Hok.
  apply (created_record Booking "booking") in Hok
    as (input & record & d & -> & Hv & -> & Hf & -> & ->);
    [|apply Booking_no_id].
  destruct (validate_model_lookup input Booking record
              (Field "rate" (TFloat (Some zero)) Required)
              (SCHEMAS_NoDup _ Booking_in_SCHEMAS)
              ltac:(unfold Booking; set_solver) Hv) as [[v Hs] Hl].
  rewrite Hs in Hl. unfold field_value in Hs. cbn [fname ftyp fdef] in Hs, Hl.
  destruct (obj_get "rate" input) as [j|]; [|done].
  destruct (validate_type (TFloat (Some zero)) j) as [e|v'] eqn:Hvt; [done|].
  inversion Hs; subst v'.
  apply validated_float_ge in Hvt as (rate & _ & -> & Hge).
  apply CreateValidation.ge_zero_not_below in Hge.
  exists rate, d, (written "booking" record d),
    (<["_id" := VObjectId (next_oid d)]> record).
  split; [done|]. split; [done|].
  split; [by rewrite docs_of_written, last_snoc|].
  by rewrite !lookup_insert_ne.
Qed.

(** X6. An accepted booking has a status out of the four declared values,
    ["booked"] when the body names none, and a source that is null or one of
    the five declared values, ["walkin"] when the body names none. *)
Theorem validated_booking_status_and_source
    (input : list (string * json)) (booking : document) :
  validate_model Booking input = inr booking ->
  (exists s, booking !! "status" = Some (VStr s)
             /\ s ∈ ["booked"; "checked_in"; "checked_out"; "cancelled"]
             /\ (obj_get "status" input = None -> s = "booked"))
  /\ (booking !! "source" = Some VNone
      \/ exists s, booking !! "source" = Some (VStr s)
                   /\ s ∈ ["walkin"; "ota"; "corporate"; "phone"; "website"])
  /\ (obj_get "source" input = None ->
      booking !! "source" = Some (VStr "walkin")).
Proof.
  intros Hv.
  pose proof (SCHEMAS_NoDup _ Booking_in_SCHEMAS) as Hnd.
  destruct (validate_model_lookup input Booking booking
              (Field "status"
                 (TLiteral ["booked"; "checked_in"; "checked_out"; "cancelled"])
                 (Default (VStr "booked")))
              Hnd ltac:(unfold Booking; set_solver) Hv) as [[v0 Hs0] Hst].
  destruct (validate_model_lookup input Booking booking
              (Field "source"
                 (TOptional
                    (TLiteral ["walkin"; "ota"; "corporate"; "phone"; "website"]))
                 (Default (VStr "walkin")))
              Hnd ltac:(unfold Booking; set_solver) Hv) as [[v Hs] Hso].
  unfold field_value in *. cbn [fname ftyp fdef] in *.
  split; [|split].
  - rewrite Hst, Hs0. destruct (obj_get "status" input) as [j|].
    + destruct (validate_type _ j) as [e|v'] eqn:Hvt; [done|].
      inversion Hs0; subst v'.
      apply validated_literal in Hvt as (s & -> & Hin).
      exists s. by repeat split.
    + inversion Hs0. exists "booked". split; [done|]. split; [|done].
      apply list_elem_of_here.
  - rewrite Hso, Hs. destruct (obj_get "source" input) as [j|].
    + destruct (validate_type _ j) as [e|v'] eqn:Hvt; [done|].
      inversion Hs; subst v'.
      apply validated_optional_literal in Hvt as [-> | (s & -> & Hin)];
        [by left | right; by exists s].
    + inversion Hs. right. exists "walkin". split; [done|].
      apply list_elem_of_here.
  - intros Hnone. by rewrite Hso, Hnone.
Qed.

End Properties.
End CreateProperties.

(* ===================================================================== *)
(** * Notifications and document extraction, read backwards               *)
(* ===================================================================== *)

Module StubProperties.
Import Py Schema Database Main Notions App.
Import SchemaFacts DatabaseFacts ModelFacts AnswerFacts Notify Ocr.

Section Properties.
Context `{Externals}.

Lemma Notification_invalid payload :
  channel payload ∉ ["sms"; "whatsapp"] ->
  validate_model Notification
    [("channel", JStr (channel payload)); ("to", JStr (to payload));
     ("message", JStr (message payload))]
  = inl [LineError ["channel"] literal_error].
Proof.
  destruct payload as [c t m]. simpl. intros Hc.
  assert (Hex : existsb (String.eqb c) ["sms"; "whatsapp"] = false).
  { destruct (existsb (String.eqb c) ["sms"; "whatsapp"]) eqn:He; [|done].
    by apply existsb_eqb_elem in He. }
  unfold validate_model, Notification. cbn -[existsb]. by rewrite Hex.
Qed.

(** X7. A send request whose channel is neither ["sms"] nor ["whatsapp"]
    raises a validation error that names the channel, before the store is
    touched: the handle is returned as it was, configured or not. *)
Theorem send_notification_rejects_other_channels
    (payload : SendNotificationPayload) (db : handle) :
  channel payload ∉ ["sms"; "whatsapp"] ->
  send_notification payload db
  = (inl (ValidationError [LineError ["channel"] literal_error]), db).
Proof.
  intros Hc. unfold send_notification, bind, lift.
  by rewrite Notification_invalid.
Qed.

(** X8. Whenever [send_notification] answers, the channel was ["sms"] or
    ["whatsapp"], the answer carries the identifier of a record it has just
    appended to the notification collection, and that record has status
    ["queued"] and neither provider nor error. *)
Theorem send_notification_answer_means_queued
    (payload : SendNotificationPayload) (db db' : handle) (r : notify_result) :
  send_notification payload db = (inr r, db') ->
  channel payload ∈ ["sms"; "whatsapp"]
  /\ exists d d' stored,
       db = Some d /\ db' = Some d'
       /\ docs_of d' "notification" = docs_of d "notification" ++ [stored]
       /\ stored !! "_id" = Some (VObjectId (next_oid d))
       /\ id r = oid_str (next_oid d)
       /\ stored !! "status" = Some (VStr "queued")
       /\ stored !! "provider" = Some VNone
       /\ stored !! "error" = Some VNone
       /\ stored !! "channel" = Some (VStr (channel payload))
       /\ stored !! "to" = Some (VStr (to payload))
       /\ stored !! "message" = Some (VStr (message payload)).
Proof.
  intros Hs.
  unfold send_notification, bind, lift in Hs.
  destruct (decide (channel payload ∈ ["sms"; "whatsapp"])) as [Hc|Hc];
    [|by rewrite Notification_invalid in Hs].
  split; [done|].
  rewrite Notification_valid in Hs by done.
  destruct (create_document "notification" (queued_notification payload) db)
    as [[e|oid] db1] eqn:Hcd; [done|].
  apply create_document_inr in Hcd as (d & -> & Hf & -> & ->).
  unfold ret in Hs. inversion Hs; subst.
  exists d, (written "notification" (queued_notification payload) d),
    (<["_id" := VObjectId (next_oid d)]> (queued_notification payload)).
  split; [done|]. split; [done|]. split; [apply docs_of_written|].
  unfold queued_notification. by simplify_map_eq.
Qed.

(** X9. Whenever [ocr_extract] answers, the upload had a name and the audit
    record of this very request has been appended to the [iddocument]
    collection; when it raises a store error, the store is as it was. *)
Theorem ocr_extract_answer_means_audited
    (file : UploadFile) (now : string) (db db' : handle) :
  (forall r, ocr_extract file now db = (inr r, db') ->
     exists fname d d',
       filename file = Some fname
       /\ db = Some d /\ db' = Some d'
       /\ docs_of d' "iddocument"
          = docs_of d "iddocument"
              ++ [<["_id" := VObjectId (next_oid d)]> (audit_record file now)])
  /\ (forall e, ocr_extract file now db = (inl e, db') ->
        (db' = db /\ (e = StoreUnavailable \/ exists msg, e = StoreWriteError msg))
        \/ (filename file = None
            /\ exists d, db = Some d
                         /\ db' = Some (written "iddocument"
                                          (audit_record file now) d))).
Proof.
  unfold ocr_extract, bind. fold (audit_record file now).
  destruct (create_document "iddocument" (audit_record file now) db)
    as [[e0|oid] db1] eqn:Hcd.
  - split; [done|]. intros e Heq. inversion Heq; subst. left.
    apply create_document_inl in Hcd as [-> [[-> ->] | (d & msg & -> & _ & ->)]];
      eauto.
  - apply create_document_inr in Hcd as (d & -> & Hf & -> & ->).
    destruct (filename file) as [fname|]; split; try done.
    + intros r Heq. inversion Heq; subst.
      exists fname, d, (written "iddocument" (audit_record file now) d).
      repeat (split; [done|]). apply docs_of_written.
    + intros e Heq. inversion Heq; subst. right. split; [done|]. by exists d.
Qed.

(** X10. The audit record of an extraction request is not an [Iddocument]
    model: it has the keys [filename], [content_type] and [received_at], which
    the model does not declare, and lacks [guest_id], [doc_type] and
    [id_number], which every validated [Iddocument] has. *)
Theorem audit_record_bypasses_Iddocument
    (file : UploadFile) (now : string)
    (input : list (string * json)) (m : document) :
  validate_model Iddocument input = inr m ->
  (forall k, k ∈ ["filename"; "content_type"; "received_at"] ->
     is_Some (audit_record file now !! k) /\ m !! k = None)
  /\ (forall k, k ∈ ["guest_id"; "doc_type"; "id_number"] ->
        audit_record file now !! k = None /\ is_Some (m !! k)).
Proof.
  intros Hv.
  assert (Hin : Iddocument ∈ SCHEMAS)
    by apply list_elem_of_further, list_elem_of_further, list_elem_of_here.
  assert (Hkeys : forall k, is_Some (m !! k) <-> k ∈ fname <$> Iddocument).
  { intros k. apply (validate_model_keys input); [|done].
    by apply SCHEMAS_NoDup. }
  destruct (audit_record_lookup file now) as (H1 & H2 & H3 & H4 & H5 & H6).
  split; intros k Hk; rewrite !elem_of_cons in Hk;
    destruct Hk as [-> | [-> | [-> | Hk]]];
    try (by apply not_elem_of_nil in Hk).
  - split; [by rewrite H2|]. apply eq_None_not_Some. rewrite Hkeys.
    by apply (bool_decide_unpack _).
  - split; [by rewrite H3|]. apply eq_None_not_Some. rewrite Hkeys.
    by apply (bool_decide_unpack _).
  - split; [by rewrite H4|]. apply eq_None_not_Some. rewrite Hkeys.
    by apply (bool_decide_unpack _).
  - split; [|apply Hkeys; by apply (bool_decide_unpack _)].
    apply eq_None_not_Some. intros Hs%audit_record_keys. revert Hs.
    by apply (bool_decide_unpack _).
  - split; [|apply Hkeys; by apply (bool_decide_unpack _)].
    apply eq_None_not_Some. intros Hs%audit_record_keys. revert Hs.
    by apply (bool_decide_unpack _).
  - split; [|apply Hkeys; by apply (bool_decide_unpack _)].
    apply eq_None_not_Some. intros Hs%audit_record_keys. revert Hs.
    by apply (bool_decide_unpack _).
Qed.

End Properties.
End StubProperties.

(* ===================================================================== *)
(** * Strings                                                             *)
(* ===================================================================== *)

Module StringFacts.
Import Py.

Lemma append_cons (c : ascii) (s t : string) :
  String c s +:+ t = String c (s +:+ t).
Proof. reflexivity. Qed.

Lemma length_append (s t : string) :
  String.length (s +:+ t) = String.length s + String.length t.
Proof. induction s as [|c s IH]; simpl; [done | by rewrite IH]. Qed.

Lemma substring_all (s : string) : String.substring 0 (String.length s) s = s.
Proof. induction s as [|c s IH]; simpl; [done | by rewrite IH]. Qed.

Lemma substring_append_r (s t : string) :
  String.substring (String.length s) (String.length t) (s +:+ t) = t.
Proof. induction s as [|c s IH]; simpl; [apply substring_all | done]. Qed.

Lemma substring_split (n m : nat) (s : string) :
  n + m = String.length s ->
  s = String.substring 0 n s +:+ String.substring n m s.
Proof.
  revert s. induction n as [|n IH]; intros s Hlen.
  - simpl in Hlen. subst m. rewrite substring_all.
    by destruct s.
  - destruct s as [|c s]; [done|]. simpl in Hlen. simpl.
    rewrite append_cons. f_equal. apply IH. lia.
Qed.

(** [endswith] holds exactly of the strings that are something followed by
    the suffix. *)
Lemma endswith_spec (s suffix : string) :
  endswith s suffix = true <-> exists stem, s = stem +:+ suffix.
Proof.
  unfold endswith. rewrite andb_true_iff, Nat.leb_le, String.eqb_eq. split.
  - intros [Hle Hsub].
    exists (String.substring 0 (String.length s - String.length suffix) s).
    rewrite <- Hsub at 2. apply substring_split. lia.
  - intros [stem ->]. rewrite length_append. split; [lia|].
    replace (String.length stem + String.length suffix - String.length suffix)
      with (String.length stem) by lia.
    apply substring_append_r.
Qed.

Lemma endswith_any_spec (s : string) (suffixes : list string) :
  endswith_any s suffixes = true
  <-> exists stem suffix, suffix ∈ suffixes /\ s = stem +:+ suffix.
Proof.
  unfold endswith_any. rewrite existsb_exists. split.
  - intros (suffix & Hin & [stem ->]%endswith_spec).
    exists stem, suffix. split; [by apply list_elem_of_In | done].
  - intros (stem & suffix & Hin & ->). exists suffix.
    split; [by apply list_elem_of_In|]. apply endswith_spec. eauto.
Qed.

Lemma lower_append (s t : string) : lower (s +:+ t) = lower s +:+ lower t.
Proof.
  induction s as [|c s IH]; [done|].
  rewrite append_cons. simpl. by rewrite append_cons, IH.
Qed.

Lemma lower_ascii_idemp (c : ascii) : lower_ascii (lower_ascii c) = lower_ascii c.
Proof.
  unfold lower_ascii.
  destruct ((65 <=? nat_of_ascii c)%nat && (nat_of_ascii c <=? 90)%nat) eqn:E.
  - apply andb_true_iff in E as [H1 H2].
    apply Nat.leb_le in H1, H2.
    rewrite nat_ascii_embedding by lia.
    replace ((nat_of_ascii c + 32 <=? 90)%nat) with false
      by (symmetry; apply Nat.leb_gt; lia).
    by rewrite andb_false_r.
  - by rewrite E.
Qed.

Lemma lower_idemp (s : string) : lower (lower s) = lower s.
Proof.
  induction s as [|c s IH]; simpl; [done|].
  by rewrite lower_ascii_idemp, IH.
Qed.

Lemma str_len_str_take (n : nat) (s : string) :
  str_len (str_take n s) = Nat.min n (str_len s).
Proof.
  revert n. induction s as [|c s IH]; intros n; [simpl; lia|].
  cbn [str_take str_len]. destruct (continuation c) eqn:Hc.
  - cbn [str_len]. rewrite Hc. apply IH.
  - destruct n as [|n]; [done|]. cbn [str_len]. rewrite Hc, IH. lia.
Qed.

Lemma str_take_prefix (n : nat) (s : string) :
  exists rest, s = str_take n s +:+ rest.
Proof.
  revert n. induction s as [|c s IH]; intros n; [by exists ""|].
  cbn [str_take]. destruct (continuation c).
  - destruct (IH n) as [rest Hrest]. exists rest.
    by rewrite append_cons, <- Hrest.
  - destruct n as [|n]; [by exists (String c s)|].
    destruct (IH n) as [rest Hrest]. exists rest.
    by rewrite append_cons, <- Hrest.
Qed.

Lemma str_take_all (n : nat) (s : string) :
  str_len s <= n -> str_take n s = s.
Proof.
  revert n. induction s as [|c s IH]; intros n Hlen; [done|].
  cbn [str_take str_len] in *. destruct (continuation c).
  - by rewrite IH.
  - destruct n as [|n]; [lia|]. rewrite IH; [done | lia].
Qed.

(** On text of one byte per character, characters are bytes. *)
Lemma str_len_ascii (s : string) :
  forallb (fun c => negb (continuation c)) (list_ascii_of_string s) = true ->
  str_len s = String.length s.
Proof.
  induction s as [|c s IH]; [done|]. cbn [list_ascii_of_string forallb].
  rewrite andb_true_iff, negb_true_iff. intros [Hc Hs].
  cbn [str_len String.length]. by rewrite Hc, IH.
Qed.

End StringFacts.

(* ===================================================================== *)
(** * Extraction by file name, the status query, listings                 *)
(* ===================================================================== *)

Module RouteProperties.
Import Py Schema Database Main Notions App.
Import SchemaFacts DatabaseFacts ModelFacts AnswerFacts Records Ocr StringFacts.

(** X11. An extraction request for a named upload is answered ["aadhaar"]
    exactly when the lower-cased file name ends in [.jpg], [.png] or [.jpeg],
    whatever the letter case of the extension in the name itself, and ["pan"]
    in every other case. *)
Theorem ocr_id_type_by_extension
    (file : UploadFile) (fname now : string) (d : Db) :
  filename file = Some fname ->
  fault d = None ->
  exists r db',
    ocr_extract file now (Some d) = (inr r, db')
    /\ (id_type r = Some "aadhaar"
        <-> exists stem ext,
              ext ∈ [".jpg"; ".png"; ".jpeg"] /\ lower fname = stem +:+ ext)
    /\ (id_type r = Some "pan"
        <-> ~ exists stem ext,
                ext ∈ [".jpg"; ".png"; ".jpeg"] /\ lower fname = stem +:+ ext)
    /\ (forall stem ext,
          fname = stem +:+ ext -> lower ext ∈ [".jpg"; ".png"; ".jpeg"] ->
          id_type r = Some "aadhaar").
Proof.
  intros Hn Hf. rewrite ocr_extract_ok by done. rewrite Hn.
  eexists _, _. split; [reflexivity|].
  unfold mocked, image_name. cbn [id_type].
  pose proof (endswith_any_spec (lower fname) [".jpg"; ".png"; ".jpeg"]) as Hspec.
  destruct (endswith_any (lower fname) [".jpg"; ".png"; ".jpeg"]).
  - assert (Hex : exists stem ext,
               ext ∈ [".jpg"; ".png"; ".jpeg"] /\ lower fname = stem +:+ ext).
    { destruct Hspec as [Hspec _]. specialize (Hspec eq_refl). done. }
    split; [done|]. split; [split; [done | tauto]|]. done.
  - assert (Hno : ~ exists stem ext,
                    ext ∈ [".jpg"; ".png"; ".jpeg"] /\ lower fname = stem +:+ ext).
    { intros Hex. destruct Hspec as [_ Hspec]. by specialize (Hspec Hex). }
    split; [split; [done | tauto]|]. split; [done|].
    intros stem ext -> Hext. exfalso. apply Hno.
    exists (lower stem), (lower ext). split; [done|]. apply lower_append.
Qed.

(** X12. In the answer of the status query the [database_url] and
    [database_name] entries tell only whether the environment variables of
    these names are set and not empty; what the connected branch wrote there
    (the database's own name among it) is always overwritten. *)
Theorem test_database_url_and_name_from_environment
    (db : handle) (environ : gmap string string) :
  exists r,
    test_database db environ = inr r
    /\ database_url r
       = Some (match environ !! "DATABASE_URL" with
               | Some v => if String.eqb v "" then "❌ Not Set" else "✅ Set"
               | None => "❌ Not Set"
               end)
    /\ database_name r
       = Some (match environ !! "DATABASE_NAME" with
               | Some v => if String.eqb v "" then "❌ Not Set" else "✅ Set"
               | None => "❌ Not Set"
               end).
Proof.
  unfold test_database, test_database_body, getenv_truthy.
  destruct db as [d|]; [destruct (list_collection_names d) as [e|names]|];
    (eexists; split; [reflexivity|]; cbn -[str_take take]; split;
     [destruct (environ !! "DATABASE_URL") as [v|]; [by destruct (String.eqb v "")|done]
     |destruct (environ !! "DATABASE_NAME") as [v|]; [by destruct (String.eqb v "")|done]]).
Qed.

(** X13. When listing the collections fails, the [database] entry of the
    status answer carries a leading piece of the exception text, fifty
    characters at most (characters, not bytes), and the whole text when it
    has no more characters than that. *)
Theorem test_database_failure_text_bounded
    (d : Db) (environ : gmap string string) (e : exn) :
  list_collection_names d = inl e ->
  exists r text rest,
    test_database (Some d) environ = inr r
    /\ database r = "⚠️  Connected but Error: " +:+ text
    /\ str_len text <= 50
    /\ str_len text = Nat.min 50 (str_len (exn_str e))
    /\ exn_str e = text +:+ rest
    /\ (str_len (exn_str e) <= 50 -> text = exn_str e).
Proof.
  intros He. destruct (str_take_prefix 50 (exn_str e)) as [rest Hrest].
  unfold test_database, test_database_body. rewrite He.
  eexists _, (str_take 50 (exn_str e)), rest.
  split; [reflexivity|]. cbn -[str_take take].
  split; [done|]. split; [rewrite str_len_str_take; lia|].
  split; [apply str_len_str_take|].
  split; [done|]. apply str_take_all.
Qed.

Section Listings.
Context `{Externals}.

(** X14. Converting the identifier of a document twice is converting it once;
    the conversion keeps the set of keys, and a document without ["_id"] is
    returned as it is. *)
Theorem stringify_id_idempotent (doc : document) :
  stringify_id (stringify_id doc) = stringify_id doc
  /\ (forall k, is_Some (stringify_id doc !! k) <-> is_Some (doc !! k))
  /\ (doc !! "_id" = None -> stringify_id doc = doc).
Proof.
  unfold stringify_id. destruct (doc !! "_id") as [v|] eqn:Hid.
  - split; [|split; [|done]].
    + rewrite lookup_insert_eq. cbn [str]. by rewrite insert_insert_eq.
    + intros k. rewrite lookup_insert_is_Some'. split; [|by right].
      intros [<- | Hk]; [by rewrite Hid | done].
  - rewrite Hid. by repeat split.
Qed.

Lemma length_filter_le {A} (keep : A -> bool) (l : list A) :
  length (List.filter keep l) <= length l.
Proof.
  induction l as [|x l IH]; [done|]. simpl. destruct (keep x); simpl; lia.
Qed.

(** X15. A guest just created is found by its phone number and by its identity
    number: after [create_guest] has returned for a validated guest (and so
    after the create route has stored it), a listing filtered by either,
    with a limit above the number of guests stored before, ends with the
    record exactly as [create_guest] returned it. *)
Theorem created_guest_found_by_query
    (input : list (string * json)) (guest : document) (d : Db)
    (q : string) (limit : Z) :
  validate_model Guest input = inr guest ->
  fault d = None ->
  guest !! "phone" = Some (VStr q) \/ guest !! "id_number" = Some (VStr q) ->
  q <> "" ->
  (length (docs_of d "guest") < Z.to_nat limit)%nat ->
  exists answer d' docs,
    create_guest guest (Some d) = (inr answer, Some d')
    /\ (POST_api_guests (JObj input) (Some d)).2 = Some d'
    /\ list_guests (Some q) limit (Some d') = (inr docs, Some d')
    /\ last docs = Some answer.
Proof.
  intros Hv Hf Hq Hne Hlen.
  assert (Hid : guest !! "_id" = None).
  { apply (validate_model_lookup_None input Guest); [done|].
    by apply (bool_decide_unpack _). }
  exists (<["_id" := VStr (oid_str (next_oid d))]> guest),
    (written "guest" guest d). eexists.
  split; [|split; [|split]].
  - by apply create_guest_ok.
  - rewrite (POST_api_guests_valid input guest d) by done.
    by destruct (doc_encodable _).
  - by apply list_guests_filtered.
  - rewrite docs_of_written, List.filter_app. cbn [List.filter].
    assert (Hm : phone_or_id_number_is q
                   (<["_id" := VObjectId (next_oid d)]> guest) = true).
    { apply phone_or_id_number_is_spec.
      rewrite !lookup_insert_ne by done. exact Hq. }
    rewrite Hm.
    pose proof (length_filter_le (phone_or_id_number_is q) (docs_of d "guest")).
    rewrite take_ge by (rewrite length_app; simpl; lia).
    rewrite map_app. simpl. rewrite last_snoc.
    by rewrite stringify_id_written.
Qed.

End Listings.
End RouteProperties.

(* ===================================================================== *)
(** * Sequences of requests                                               *)
(* ===================================================================== *)

Module AppProperties.
Import Py Schema Database Main Notions App.
Import SchemaFacts DatabaseFacts ModelFacts AnswerFacts Records.

Lemma create_document_one_write collection_name record db :
  one_write db (create_document collection_name record db).2.
Proof.
  destruct (create_document collection_name record db) as [[e|oid] db'] eqn:Hc.
  - apply create_document_inl in Hc as [-> _]. by left.
  - apply create_document_inr in Hc as (d & -> & Hf & _ & ->).
    right. by exists d, collection_name, record.
Qed.

Section Requests.
Context `{Externals}.

Lemma bind_create_state {A} collection_name record
    (k : string -> SE handle A) db :
  (forall oid db1, (k oid db1).2 = db1) ->
  one_write db (bind (create_document collection_name record) k db).2.
Proof.
  intros Hk. unfold bind.
  pose proof (create_document_one_write collection_name record db) as Hw.
  destruct (create_document collection_name record db) as [[e|oid] db'];
    [done|]. by rewrite Hk.
Qed.

Lemma with_body_one_write {A} (encodable : A -> bool) (model : list field)
    (body : json) (handler : document -> SE handle A) db :
  (forall m, one_write db (handler m db).2) ->
  one_write db (with_body encodable model body handler db).2.
Proof.
  intros Hh.
  destruct (with_body_state encodable model body handler db)
    as [-> | (input & m & _ & _ & ->)]; [by left | apply Hh].
Qed.

Lemma send_notification_one_write payload db :
  one_write db (send_notification payload db).2.
Proof.
  unfold send_notification, bind at 1, lift.
  destruct (validate_model Notification _) as [errors|notif]; [by left|].
  by apply bind_create_state.
Qed.

Lemma after_one_write db (r : request) : one_write db (after db r).
Proof.
  destruct r; cbn [after]; try by left.
  - unfold POST_api_ocr. rewrite respond_state. unfold ocr_extract.
    apply bind_create_state. intros _ db1.
    unfold bind. by destruct (filename file).
  - unfold POST_api_guests. apply with_body_one_write. intros m.
    by apply bind_create_state.
  - unfold GET_api_guests. rewrite respond_state. unfold list_guests, bind.
    pose proof (get_documents_state "guest"
                  (if truthy q
                   then AnyOf [[("phone", default "" q)];
                               [("id_number", default "" q)]]
                   else Fields []) (default 25%Z limit) db) as Hg.
    destruct (get_documents _ _ _ db) as [[e|docs] db']; left; exact Hg.
  - unfold POST_api_bookings. apply with_body_one_write. intros m.
    by apply bind_create_state.
  - unfold GET_api_bookings. rewrite respond_state. unfold list_bookings, bind.
    pose proof (get_documents_state "booking" (Fields [])
                  (default 50%Z limit) db) as Hg.
    destruct (get_documents _ _ _ db) as [[e|docs] db']; left; exact Hg.
  - unfold POST_api_notify. apply with_body_one_write. intros m.
    unfold bind at 1, lift.
    destruct (as_payload m) as [e|payload]; [by left|].
    apply send_notification_one_write.
Qed.

Lemma extends_written collection_name record d :
  extends d (written collection_name record d) 1.
Proof.
  split; [|split; [done|split; [done|split]]].
  - intros c. destruct (decide (collection_name = c)) as [<-|Hne].
    + rewrite docs_of_written. by apply prefix_app_r.
    + by rewrite docs_of_written_ne.
  - rewrite next_oid_written. lia.
  - apply ids_issued_written.
Qed.

Lemma extends_refl d n : extends d d n.
Proof. repeat split; try done; lia. Qed.

Lemma extends_trans d1 d2 d3 n m :
  extends d1 d2 n -> extends d2 d3 m -> extends d1 d3 (n + m).
Proof.
  intros (P1 & N1 & F1 & O1 & I1) (P2 & N2 & F2 & O2 & I2).
  split; [|split; [congruence|split; [congruence|split]]].
  - intros c. etrans; [apply P1 | apply P2].
  - lia.
  - auto.
Qed.

(** X16. Whatever requests are served one after the other on a connected
    store, the store stays connected, every collection only grows at its end
    (no stored record is changed, moved or removed), at most one identifier
    is used up per request, and every identifier in the store remains below
    the next one to be handed out. An unconfigured store stays
    unconfigured. *)
Theorem requests_only_append (rs : list request) (d : Db) :
  after_all None rs = None
  /\ exists d',
       after_all (Some d) rs = Some d'
       /\ (forall collection_name,
             docs_of d collection_name `prefix_of` docs_of d' collection_name)
       /\ name d' = name d /\ fault d' = fault d
       /\ (next_oid d <= next_oid d' <= next_oid d + N.of_nat (length rs))%N
       /\ (ids_issued d -> ids_issued d').
Proof.
  split.
  - unfold after_all. induction rs as [|r rs IH]; [done|]. cbn [fold_left].
    destruct (after_one_write None r) as [-> | (d0 & c & rec & Hd & _)];
      [exact IH | done].
  - change (exists d', after_all (Some d) rs = Some d'
                       /\ extends d d' (length rs)).
    unfold after_all. revert d. induction rs as [|r rs IH]; intros d.
    + exists d. split; [done | apply extends_refl].
    + cbn [fold_left length].
      destruct (after_one_write (Some d) r)
        as [-> | (d0 & c & rec & Hd & Hf & ->)].
      * destruct (IH d) as (d' & Hrun & Hext). exists d'. split; [done|].
        apply (extends_trans d d d' 1 (length rs));
          [apply extends_refl | done].
      * inversion Hd; subst d0.
        destruct (IH (written c rec d)) as (d' & Hrun & Hext).
        exists d'. split; [done|].
        apply (extends_trans d (written c rec d) d' 1 (length rs));
          [apply extends_written | done].
Qed.

End Requests.
End AppProperties.

Module ListingProperties.
Import Py Schema Database Main Notions App.
Import DatabaseFacts AnswerFacts AppProperties.

Section Listings.
Context `{Externals}.

Lemma get_documents_length collection_name filt limit db docs db' :
  get_documents collection_name filt limit db = (inr docs, db') ->
  length docs <= Z.to_nat limit.
Proof.
  unfold get_documents. destruct db as [d|]; [|done].
  destruct (fault d); [done|]. intros Heq. inversion Heq.
  rewrite length_take. lia.
Qed.

(** X17. A listing never holds more records than its limit, which is 25 for
    guests and 50 for bookings when the request names none, and it leaves the
    store as it was. *)
Theorem listings_bounded_and_read_only
    (q : option string) (limit : option Z) (db : handle) :
  (GET_api_guests q limit db).2 = db
  /\ (GET_api_bookings limit db).2 = db
  /\ (forall docs db',
        GET_api_guests q limit db = (OK docs, db') ->
        length docs
        <= match limit with Some n => Z.to_nat n | None => 25 end)
  /\ (forall docs db',
        GET_api_bookings limit db = (OK docs, db') ->
        length docs
        <= match limit with Some n => Z.to_nat n | None => 50 end).
Proof.
  split; [|split; [|split]].
  - unfold GET_api_guests. rewrite respond_state. unfold list_guests, bind.
    pose proof (get_documents_state "guest"
                  (if truthy q
                   then AnyOf [[("phone", default "" q)];
                               [("id_number", default "" q)]]
                   else Fields []) (default 25%Z limit) db) as Hg.
    by destruct (get_documents _ _ _ db) as [[e|docs] db'].
  - unfold GET_api_bookings. rewrite respond_state. unfold list_bookings, bind.
    pose proof (get_documents_state "booking" (Fields [])
                  (default 50%Z limit) db) as Hg.
    by destruct (get_documents _ _ _ db) as [[e|docs] db'].
  - intros docs db'. unfold GET_api_guests, respond, list_guests, bind.
    destruct (get_documents _ _ _ db) as [[e|docs0] db0] eqn:Hg; [done|].
    unfold ret. destruct (forallb doc_encodable _); [|done].
    intros Heq. inversion Heq; subst.
    rewrite length_map. apply get_documents_length in Hg.
    by destruct limit.
  - intros docs db'. unfold GET_api_bookings, respond, list_bookings, bind.
    destruct (get_documents _ _ _ db) as [[e|docs0] db0] eqn:Hg; [done|].
    unfold ret. destruct (forallb doc_encodable _); [|done].
    intros Heq. inversion Heq; subst.
    rewrite length_map. apply get_documents_length in Hg.
    by destruct limit.
Qed.

End Listings.
End ListingProperties.

(* ===================================================================== *)
(** * The further properties at concrete requests                         *)
(* ===================================================================== *)

Module MoreRuns.
Import Py Schema Database Main Notions App Scenario Cases.
Import SchemaFacts DatabaseFacts ModelFacts AnswerFacts Records.
Import ModelProperties CreateProperties StubProperties RouteProperties.
Import Reference.

Lemma asha_has_the_guest_fields :
  Guest ∈ SCHEMAS
  /\ validate_model Guest asha_input = inr asha
  /\ (forall k, is_Some (asha !! k) <-> k ∈ fname <$> Guest)
  /\ (forall f, f ∈ Guest ->
        asha !! fname f
        = match obj_get (fname f) asha_input with
          | Some j =>
              match validate_type (ftyp f) j with
              | inr v => Some v
              | inl _ => None
              end
          | None =>
              match fdef f with
              | Default v => Some v
              | Required => None
              end
          end).
Proof.
  assert (Hin : Guest ∈ SCHEMAS) by apply list_elem_of_here.
  split; [exact Hin|]. split; [reflexivity|].
  exact (validated_model_fields Guest asha_input asha Hin eq_refl).
Defined.


Lemma asha_answer_is_what_was_stored :
  (Guest, "guest", POST_api_guests)
    ∈ [(Guest, "guest", POST_api_guests); (Booking, "booking", POST_api_bookings)]
  /\ POST_api_guests (JObj asha_input) (Some db0)
     = (OK (<["_id" := VStr "0x0"]> asha), Some (written "guest" asha db0))
  /\ exists input record d d',
       JObj asha_input = JObj input
       /\ validate_model Guest input = inr record
       /\ Some db0 = Some d /\ Some (written "guest" asha db0) = Some d'
       /\ docs_of d' "guest"
          = docs_of d "guest" ++ [<["_id" := VObjectId (next_oid d)]> record]
       /\ <["_id" := VStr "0x0"]> asha
          = <["_id" := VStr (oid_str (next_oid d))]> record
       /\ (forall other, other <> "guest" -> docs_of d' other = docs_of d other).
Proof.
  assert (Hin : (Guest, "guest", POST_api_guests)
                  ∈ [(Guest, "guest", POST_api_guests);
                     (Booking, "booking", POST_api_bookings)])
    by apply list_elem_of_here.
  split; [exact Hin|]. split; [reflexivity|].
  exact (create_answers_only_what_it_stored (JObj asha_input) (Some db0)
           (Some (written "guest" asha db0)) (<["_id" := VStr "0x0"]> asha)
           Guest "guest" POST_api_guests Hin eq_refl).
Defined.

Lemma booking_204_rate_not_below_zero :
  POST_api_bookings (JObj (booking_input (JInt 1200))) (Some db0)
  = (OK (<["_id" := VStr "0x0"]> booking_204),
     Some (written "booking" booking_204 db0))
  /\ exists rate d d' stored,
       Some db0 = Some d /\ Some (written "booking" booking_204 db0) = Some d'
       /\ last (docs_of d' "booking") = Some stored
       /\ stored !! "rate" = Some (VFloat rate)
       /\ (<["_id" := VStr "0x0"]> booking_204) !! "rate" = Some (VFloat rate)
       /\ SFltb rate zero = false.
Proof.
  split; [reflexivity|].
  exact (created_booking_rate_not_below_zero
           (JObj (booking_input (JInt 1200))) (Some db0)
           (Some (written "booking" booking_204 db0))
           (<["_id" := VStr "0x0"]> booking_204) eq_refl).
Defined.

Lemma booking_204_status_and_source :
  validate_model Booking (booking_input (JInt 1200)) = inr booking_204
  /\ (exists s, booking_204 !! "status" = Some (VStr s)
                /\ s ∈ ["booked"; "checked_in"; "checked_out"; "cancelled"]
                /\ (obj_get "status" (booking_input (JInt 1200)) = None ->
                    s = "booked"))
  /\ (booking_204 !! "source" = Some VNone
      \/ exists s, booking_204 !! "source" = Some (VStr s)
                   /\ s ∈ ["walkin"; "ota"; "corporate"; "phone"; "website"])
  /\ (obj_get "source" (booking_input (JInt 1200)) = None ->
      booking_204 !! "source" = Some (VStr "walkin")).
Proof.
  split; [reflexivity|].
  exact (validated_booking_status_and_source
           (booking_input (JInt 1200)) booking_204 eq_refl).
Defined.

Lemma mail_channel_rejected :
  (channel mail ∉ ["sms"; "whatsapp"])
  /\ send_notification mail None
     = (inl (ValidationError [LineError ["channel"] literal_error]), None).
Proof.
  assert (Hc : channel mail ∉ ["sms"; "whatsapp"])
    by (by apply (bool_decide_unpack _)).
  split; [exact Hc|].
  exact (send_notification_rejects_other_channels mail None Hc).
Defined.

Lemma welcome_answer_means_queued :
  send_notification welcome (Some db0)
  = (inr (MkNotifyResult "sent" "0x0"),
     Some (written "notification" (queued_notification welcome) db0))
  /\ channel welcome ∈ ["sms"; "whatsapp"]
  /\ exists d d' stored,
       Some db0 = Some d
       /\ Some (written "notification" (queued_notification welcome) db0) = Some d'
       /\ docs_of d' "notification" = docs_of d "notification" ++ [stored]
       /\ stored !! "_id" = Some (VObjectId (next_oid d))
       /\ id (MkNotifyResult "sent" "0x0") = oid_str (next_oid d)
       /\ stored !! "status" = Some (VStr "queued")
       /\ stored !! "provider" = Some VNone
       /\ stored !! "error" = Some VNone
       /\ stored !! "channel" = Some (VStr (channel welcome))
       /\ stored !! "to" = Some (VStr (to welcome))
       /\ stored !! "message" = Some (VStr (message welcome)).
Proof.
  split; [reflexivity|].
  exact (send_notification_answer_means_queued welcome (Some db0)
           (Some (written "notification" (queued_notification welcome) db0))
           (MkNotifyResult "sent" "0x0") eq_refl).
Defined.

Lemma blank_iddocument_is_no_audit_record :
  validate_model Iddocument [] = inr blank_iddocument
  /\ (forall k, k ∈ ["filename"; "content_type"; "received_at"] ->
        is_Some (audit_record scan noon !! k) /\ blank_iddocument !! k = None)
  /\ (forall k, k ∈ ["guest_id"; "doc_type"; "id_number"] ->
        audit_record scan noon !! k = None /\ is_Some (blank_iddocument !! k)).
Proof.
  split; [reflexivity|].
  exact (audit_record_bypasses_Iddocument scan noon [] blank_iddocument eq_refl).
Defined.

Lemma scan_answered_aadhaar :
  filename scan = Some "aadhaar-front.JPG"
  /\ fault db0 = None
  /\ exists r db',
       ocr_extract scan noon (Some db0) = (inr r, db')
       /\ (id_type r = Some "aadhaar"
           <-> exists stem ext,
                 ext ∈ [".jpg"; ".png"; ".jpeg"]
                 /\ lower "aadhaar-front.JPG" = stem +:+ ext)
       /\ (id_type r = Some "pan"
           <-> ~ exists stem ext,
                   ext ∈ [".jpg"; ".png"; ".jpeg"]
                   /\ lower "aadhaar-front.JPG" = stem +:+ ext)
       /\ (forall stem ext,
             "aadhaar-front.JPG" = stem +:+ ext ->
             lower ext ∈ [".jpg"; ".png"; ".jpeg"] ->
             id_type r = Some "aadhaar").
Proof.
  split; [reflexivity|]. split; [reflexivity|].
  exact (ocr_id_type_by_extension scan "aadhaar-front.JPG" noon db0
           eq_refl eq_refl).
Defined.

Lemma refused_connection_described :
  list_collection_names db_down = inl (StoreReadError "connection refused")
  /\ exists r text rest,
       test_database (Some db_down) ∅ = inr r
       /\ database r = "⚠️  Connected but Error: " +:+ text
       /\ str_len text <= 50
       /\ str_len text
          = Nat.min 50 (str_len (exn_str (StoreReadError "connection refused")))
       /\ exn_str (StoreReadError "connection refused") = text +:+ rest
       /\ (str_len (exn_str (StoreReadError "connection refused")) <= 50 ->
           text = exn_str (StoreReadError "connection refused")).
Proof.
  split; [reflexivity|].
  exact (test_database_failure_text_bounded db_down ∅
           (StoreReadError "connection refused") eq_refl).
Defined.

Lemma asha_found_by_phone :
  validate_model Guest asha_input = inr asha
  /\ fault db_two_guests = None
  /\ (asha !! "phone" = Some (VStr "+919999999999")
      \/ asha !! "id_number" = Some (VStr "+919999999999"))
  /\ "+919999999999" <> ""
  /\ (length (docs_of db_two_guests "guest") < Z.to_nat 25)%nat
  /\ exists answer d' docs,
       create_guest asha (Some db_two_guests) = (inr answer, Some d')
       /\ (POST_api_guests (JObj asha_input) (Some db_two_guests)).2 = Some d'
       /\ list_guests (Some "+919999999999") 25 (Some d') = (inr docs, Some d')
       /\ last docs = Some answer.
Proof.
  assert (Hq : "+919999999999" <> "") by discriminate.
  assert (Hlen : (length (docs_of db_two_guests "guest") < Z.to_nat 25)%nat)
    by (vm_compute; lia).
  split; [reflexivity|]. split; [reflexivity|].
  split; [left; reflexivity|]. split; [exact Hq|]. split; [exact Hlen|].
  exact (created_guest_found_by_query asha_input asha db_two_guests
           "+919999999999" 25 eq_refl eq_refl (or_introl eq_refl) Hq Hlen).
Defined.

(** A text of thirty characters of three bytes each is kept whole by the
    cut at fifty characters. *)
Example cut_counts_characters :
  let text := "अअअअअअअअअअअअअअअअअअअअअअअअअअअअअअ" in
  String.length text = 90 /\ str_len text = 30 /\ str_take 50 text = text.
Proof. repeat split; reflexivity. Qed.

End MoreRuns.
